(** * re-report: the upload form's submission flow

    A shallow embedding of the two form components of the repository and of
    the transport helper they use:

    - [ReportGenerator] (src/App.jsx): title + CSV file, [loading] flag,
      inline [fetch];
    - [App] (the second component, which imports [analyzeData]): name + CSV
      file, no [loading] flag, request delegated to [analyzeData]
      (src/api.js; the repository holds a second copy with the same code).

    An [async] function is split at its first [await]: the synchronous prefix
    runs when the submit event is dispatched, the continuation runs when the
    promise returned by [fetch] settles. The body read that follows
    ([response.json()] / [response.blob()]) changes no component state until it
    settles itself, so its result is carried by the response and both awaits
    are folded into one settle step. *)

From Stdlib Require Import List Bool Arith NArith Lia String Ascii.
From Stdlib Require Import DecimalString DecimalN DecimalPos.
From Stdlib Require Import Floats.SpecFloat.
Import ListNotations.

Set Implicit Arguments.
Set Warnings "-register-all".

(** ** JavaScript strings *)

(** A JS string is a sequence of UTF-16 code units. *)
Definition jsstring := list N.

Definition lit (s : string) : jsstring :=
  map N_of_ascii (list_ascii_of_string s).

Definition jsstring_eq_dec : forall a b : jsstring, {a = b} + {a <> b} :=
  list_eq_dec N.eq_dec.

Definition jsstring_eqb (a b : jsstring) : bool :=
  if jsstring_eq_dec a b then true else false.

(** ECMAScript WhiteSpace and LineTerminator code points: what
    [String.prototype.trim] strips. All of them are single code units. *)
Definition is_white_space (c : N) : bool :=
  (  (c =? 0x0009) || (c =? 0x000A) || (c =? 0x000B) || (c =? 0x000C)
  || (c =? 0x000D) || (c =? 0x0020) || (c =? 0x00A0) || (c =? 0x1680)
  || ((0x2000 <=? c) && (c <=? 0x200A))
  || (c =? 0x2028) || (c =? 0x2029) || (c =? 0x202F) || (c =? 0x205F)
  || (c =? 0x3000) || (c =? 0xFEFF))%N.

Fixpoint trimStart (s : jsstring) : jsstring :=
  match s with
  | [] => []
  | c :: s' => if is_white_space c then trimStart s' else s
  end.

Definition trimEnd (s : jsstring) : jsstring := rev (trimStart (rev s)).

(** [s.trim()] *)
Definition trim (s : jsstring) : jsstring := trimEnd (trimStart s).

(** A title is blank when it is empty or made of white space only. *)
Definition blank (s : jsstring) : bool := forallb is_white_space s.

(** [`${n}`] for a non-negative integer: its decimal digits. *)
Definition decimal (n : N) : jsstring :=
  lit (NilZero.string_of_uint (N.to_uint n)).

Fixpoint is_prefix (p s : jsstring) : bool :=
  match p, s with
  | [], _ => true
  | _ :: _, [] => false
  | a :: p', b :: s' => (a =? b)%N && is_prefix p' s'
  end.

(** [s.includes(p)] *)
Fixpoint includes (s p : jsstring) : bool :=
  is_prefix p s ||
  match s with
  | [] => false
  | _ :: s' => includes s' p
  end.

(** ** JSON values, as [JSON.parse] produces them *)

Inductive json : Type :=
| JNull
| JBool (b : bool)
| JNum (x : spec_float)
| JStr (s : jsstring)
| JArr (l : list json)
| JObj (members : list (jsstring * json)).

(** ToBoolean *)
Definition truthy (v : json) : bool :=
  match v with
  | JNull => false
  | JBool b => b
  | JNum (S754_zero _) => false
  | JNum S754_nan => false
  | JNum _ => true
  | JStr s => negb (jsstring_eqb s [])
  | JArr _ => true
  | JObj _ => true
  end.

(** Own property of a parsed object; of two members with one key the later
    one wins. [None] is [undefined]. *)
Fixpoint get_member (k : jsstring) (members : list (jsstring * json)) : option json :=
  match members with
  | [] => None
  | (k', v) :: rest =>
      match get_member k rest with
      | Some v' => Some v'
      | None => if jsstring_eqb k k' then Some v else None
      end
  end.

(** ** Files, form data, requests, responses *)

Record File := mkFile { file_name : jsstring; file_bytes : list N }.

Record Blob := mkBlob { blob_bytes : list N }.

Inductive FormDataEntryValue :=
| EString (s : jsstring)
| EFile (f : File).

Definition FormData := list (jsstring * FormDataEntryValue).

(** UTF-16 surrogates *)
Definition is_high_surrogate (c : N) : bool := ((0xD800 <=? c) && (c <=? 0xDBFF))%N.
Definition is_low_surrogate (c : N) : bool := ((0xDC00 <=? c) && (c <=? 0xDFFF))%N.

(** Conversion of a string to a USVString: every surrogate that is not
    half of a pair (a high one directly followed by a low one) is replaced
    by U+FFFD. *)
Fixpoint to_usv (s : jsstring) : jsstring :=
  match s with
  | [] => []
  | c :: s' =>
      if is_high_surrogate c then
        match s' with
        | d :: s'' =>
            if is_low_surrogate d then c :: d :: to_usv s''
            else 0xFFFD%N :: to_usv s'
        | [] => [0xFFFD%N]
        end
      else if is_low_surrogate c then 0xFFFD%N :: to_usv s'
      else c :: to_usv s'
  end.

(** [formData.append(name, value)]: the name and a string value are taken
    as USVStrings, a file is stored as it is. *)
Definition append (name : jsstring) (value : FormDataEntryValue) (fd : FormData) : FormData :=
  fd ++ [(to_usv name,
          match value with
          | EString s => EString (to_usv s)
          | EFile f => EFile f
          end)].

Record Request := mkRequest {
  req_url : jsstring;
  req_method : jsstring;
  req_body : FormData
}.

(** A thrown value; the handlers only ever read its [message]. *)
Record Exn := mkExn { message : jsstring }.

(** A response together with what reading its body gives: [json_body] is
    [None] when [response.json()] rejects (the body is not JSON),
    [blob_body] is [inr e] when [response.blob()] rejects with [e]. *)
Record Response := mkResponse {
  status : N;
  json_body : option json;
  blob_body : Blob + Exn
}.

(** [response.ok]: the status is in the range 200-299. *)
Definition ok (r : Response) : bool :=
  ((200 <=? status r) && (status r <=? 299))%N.

(** How the promise returned by [fetch] settles. *)
Inductive FetchOutcome :=
| Rejected (e : Exn)
| Resolved (r : Response).

(** An object URL, as [URL.createObjectURL] mints them. *)
Inductive ObjectURL := BlobURL (n : nat).

(** ** The browser side: requests and the blob URL store *)

Record Env := mkEnv {
  sent : list Request;                  (* every request issued so far *)
  inflight : list nat;                  (* indices in [sent] not yet settled *)
  minted : nat;                         (* object URLs created so far *)
  blob_urls : list (ObjectURL * Blob)   (* the live entries of the blob URL store *)
}.

Definition env0 : Env := mkEnv [] [] 0 [].

Record World (C : Type) := mkWorld { comp : C; env : Env }.

(** ** Statements that may throw, over a world *)

Inductive Completion (A : Type) :=
| Normal (a : A)
| Throw (e : Exn).
Arguments Throw {A} e.

Definition M (C A : Type) := World C -> Completion A * World C.

Section Monad.
Context {C : Type}.

Definition ret {A} (a : A) : M C A := fun w => (Normal a, w).

Definition throw {A} (e : Exn) : M C A := fun w => (Throw e, w).

Definition bind {A B} (m : M C A) (k : A -> M C B) : M C B :=
  fun w =>
    match m w with
    | (Normal a, w') => k a w'
    | (Throw e, w') => (Throw e, w')
    end.

(** [try { body } catch (e) { handler e }] *)
Definition try_catch {A} (body : M C A) (handler : Exn -> M C A) : M C A :=
  fun w =>
    match body w with
    | (Normal a, w') => (Normal a, w')
    | (Throw e, w') => handler e w'
    end.

(** [try { body } finally { fin }]: [fin] always runs; when it completes
    normally the completion of [body] stands. *)
Definition try_finally {A} (body : M C A) (fin : M C unit) : M C A :=
  fun w =>
    match body w with
    | (c, w') =>
        match fin w' with
        | (Normal _, w'') => (c, w'')
        | (Throw e, w'') => (Throw e, w'')
        end
    end.

Definition modify_comp (f : C -> C) : M C unit :=
  fun w => (Normal tt, mkWorld (f (comp w)) (env w)).

Definition get_comp : M C C := fun w => (Normal (comp w), w).

(** [fetch(url, { method, body })] up to the point where it returns its
    promise: the request is issued and is in flight. *)
Definition fetch (url method : jsstring) (body : FormData) : M C nat :=
  fun w =>
    let e := env w in
    let id := List.length (sent e) in
    (Normal id,
     mkWorld (comp w)
       (mkEnv (sent e ++ [mkRequest url method body])
              (inflight e ++ [id])
              (minted e) (blob_urls e))).

(** [URL.createObjectURL(blob)]: a new URL, registered in the store. *)
Definition createObjectURL (b : Blob) : M C ObjectURL :=
  fun w =>
    let e := env w in
    let u := BlobURL (minted e) in
    (Normal u,
     mkWorld (comp w)
       (mkEnv (sent e) (inflight e) (S (minted e)) ((u, b) :: blob_urls e))).

(** [await response.json()] / [await response.blob()] on a settled body *)
Definition await_json (r : Response) : M C json :=
  match json_body r with
  | Some v => ret v
  | None => throw (mkExn (lit "Unexpected token in JSON"))
  end.

Definition await_blob (r : Response) : M C Blob :=
  match blob_body r with
  | inl b => ret b
  | inr e => throw e
  end.

(** [await p] for the promise of a fetch that has settled *)
Definition await_fetch (o : FetchOutcome) : M C Response :=
  match o with
  | Resolved r => ret r
  | Rejected e => throw e
  end.

(** The settle event of request [id] takes it off the in-flight list. *)
Definition settle (id : nat) (w : World C) : World C :=
  let e := env w in
  mkWorld (comp w)
    (mkEnv (sent e) (remove Nat.eq_dec id (inflight e)) (minted e) (blob_urls e)).

Definition exec {A} (m : M C A) (w : World C) : World C := snd (m w).
End Monad.

Declare Scope js_scope.
Delimit Scope js_scope with js.
Notation "x <- m ;; k" := (bind m (fun x => k))
  (at level 61, m at next level, right associativity) : js_scope.
Notation "m ;; k" := (bind m (fun _ => k))
  (at level 61, right associativity) : js_scope.

Open Scope js_scope.

(** [v.error] on a parsed JSON value: a TypeError on [null], the own member
    of an object, [undefined] on everything else. *)
Definition get_error {C} (v : json) : M C (option json) :=
  match v with
  | JNull => throw (mkExn (lit "Cannot read properties of null (reading 'error')"))
  | JObj members => ret (get_member (lit "error") members)
  | _ => ret None
  end.

(** [v || d] *)
Definition or_default (v : option json) (d : json) : json :=
  match v with
  | Some x => if truthy x then x else d
  | None => d
  end.

(** ** src/api.js *)

(** [analyzeData(formData)] up to its first [await]. *)
Definition analyzeData {C} (formData : FormData) : M C nat :=
  fetch (lit "/api/analyze") (lit "POST") formData.

(** [analyzeData] from the point where its [fetch] has settled. *)
Definition analyzeData_settled {C} (o : FetchOutcome) : M C ObjectURL :=
  res <- await_fetch o ;;
  if negb (ok res) then
    throw (mkExn (lit "Server error: " ++ decimal (status res)))
  else
    blob <- await_blob res ;;
    url <- createObjectURL blob ;;
    ret url.

(** ** The Submission Result and its state machine, in the specification's
    words *)

Inductive Kind := Idle | Pending | Success | Failed.

Inductive Label := submit_valid | submit_invalid | resolve_ok | resolve_err.

(** Idle --submit(valid)--> Pending --resolve(ok)--> Success;
    Pending --resolve(err)--> Failed;
    {Success,Failed} --submit(valid)--> Pending;
    {Idle,Success,Failed} --submit(invalid)--> Failed. *)
Definition spec_machine (k : Kind) (l : Label) (k' : Kind) : bool :=
  match k, l, k' with
  | (Idle | Success | Failed), submit_valid, Pending => true
  | (Idle | Success | Failed), submit_invalid, Failed => true
  | Pending, resolve_ok, Success => true
  | Pending, resolve_err, Failed => true
  | _, _, _ => false
  end.

(** A settle that hands the component a response it can display: a 2xx
    status whose body could be read. *)
Definition settles_ok (o : FetchOutcome) : bool :=
  match o with
  | Resolved r => ok r && match blob_body r with inl _ => true | inr _ => false end
  | Rejected _ => false
  end.

(** The object URLs of the store are among those minted so far. *)
Definition store_ok (e : Env) : Prop :=
  forall n b, In (BlobURL n, b) (blob_urls e) -> n < minted e.

(** Whether React can print a value as the child of an element: a string
    or a number as text, [null] and booleans as nothing, an array item by
    item; a plain object is refused ("Objects are not valid as a React
    child"). *)
Fixpoint printable (v : json) : bool :=
  match v with
  | JObj _ => false
  | JArr l =>
      (fix all (l : list json) : bool :=
         match l with
         | [] => true
         | x :: l' => printable x && all l'
         end) l
  | _ => true
  end.

(** [x && <element>] in JSX: the falsy value of [x] itself, or the element. *)
Inductive Slot (A : Type) :=
| Falsy (v : json)
| Element (a : A).
Arguments Falsy {A} v.

(** [s || d] on strings *)
Definition or_string (s d : jsstring) : jsstring :=
  if jsstring_eqb s [] then d else s.

(** What the user and the network can do to a mounted component. *)
Inductive Event :=
| ChangeTitle (text : jsstring)            (* typing in the text input *)
| ChangeFile (f : option File)             (* [e.target.files[0]] of the file input *)
| Submit                                   (* activating the submit button *)
| Settle (id : nat) (o : FetchOutcome).    (* the fetch of request [id] settles *)

(** ** src/App.jsx: [ReportGenerator] *)

Module ReportGenerator.

Record State := mkState {
  reportTitle : jsstring;
  file : option File;
  loading : bool;
  pdfUrl : option ObjectURL;
  error : json
}.

Definition initial : State := mkState [] None false None JNull.

Definition setReportTitle (v : jsstring) : M State unit :=
  modify_comp (fun c => mkState v (file c) (loading c) (pdfUrl c) (error c)).
Definition setFile (v : option File) : M State unit :=
  modify_comp (fun c => mkState (reportTitle c) v (loading c) (pdfUrl c) (error c)).
Definition setLoading (v : bool) : M State unit :=
  modify_comp (fun c => mkState (reportTitle c) (file c) v (pdfUrl c) (error c)).
Definition setPdfUrl (v : option ObjectURL) : M State unit :=
  modify_comp (fun c => mkState (reportTitle c) (file c) (loading c) v (error c)).
Definition setError (v : json) : M State unit :=
  modify_comp (fun c => mkState (reportTitle c) (file c) (loading c) (pdfUrl c) v).

(** [handleSubmit], lines 10-34: up to [await fetch(...)]. *)
Definition handleSubmit : M State unit :=
  setError JNull ;;
  setPdfUrl None ;;
  c <- get_comp ;;
  match file c with
  | None => setError (JStr (lit "Please upload a CSV file."))
  | Some f =>
      if jsstring_eqb (trim (reportTitle c)) [] then
        setError (JStr (lit "Please enter a report title."))
      else
        setLoading true ;;
        let formData := append (lit "file") (EFile f) [] in
        let formData :=
          append (lit "reportTitle") (EString (trim (reportTitle c))) formData in
        _ <- fetch (lit "http://localhost:8000/api/analyze") (lit "POST") formData ;;
        ret tt
  end.

(** [handleSubmit], lines 26-50, from the point where the fetch has
    settled: the [try] block, its [catch] and its [finally]. *)
Definition handleSubmit_settled (o : FetchOutcome) : M State unit :=
  try_finally
    (try_catch
       (response <- await_fetch o ;;
        if negb (ok response) then
          err <- await_json response ;;
          m <- get_error err ;;
          setError (or_default m (JStr (lit "Failed to generate report."))) ;;
          setLoading false
        else
          blob <- await_blob response ;;
          url <- createObjectURL blob ;;
          setPdfUrl (Some url))
       (fun _ => setError (JStr (lit "Network error. Please try again."))))
    (setLoading false).

(** One event. The submit button carries [disabled={loading}] (lines
    83-85): while [loading] the form cannot be submitted through it, so
    [handleSubmit] is not called. The [required] attributes of the two
    inputs only block further submissions and are left out. *)
Definition step (ev : Event) (w : World State) : World State :=
  match ev with
  | ChangeTitle text => exec (setReportTitle text) w
  | ChangeFile f => exec (setFile f) w
  | Submit => if loading (comp w) then w else exec handleSubmit w
  | Settle id o =>
      if in_dec Nat.eq_dec id (inflight (env w))
      then exec (handleSubmit_settled o) (settle id w)
      else w
  end.

Definition world0 : World State := mkWorld initial env0.

Definition run (evs : list Event) (w : World State) : World State :=
  fold_left (fun w ev => step ev w) evs w.

Inductive reachable : World State -> Prop :=
| reach_init : reachable world0
| reach_step ev w : reachable w -> reachable (step ev w).

(** The Submission Result that the rendering shows (lines 81-100): the
    button reads "Generating..." while [loading], the message is shown
    when [error] is truthy, the preview when [pdfUrl] is. *)
Inductive Result :=
| RIdle
| RPending
| RSuccess (u : ObjectURL)
| RFailed (msg : json).

Definition result (c : State) : Result :=
  if loading c then RPending
  else if truthy (error c) then RFailed (error c)
  else match pdfUrl c with
       | Some u => RSuccess u
       | None => RIdle
       end.

Definition kind (c : State) : Kind :=
  match result c with
  | RIdle => Idle
  | RPending => Pending
  | RSuccess _ => Success
  | RFailed _ => Failed
  end.

(** At most one of: loading, a message, a preview. *)
Definition exclusive (c : State) : Prop :=
  (loading c = true -> error c = JNull /\ pdfUrl c = None) /\
  (truthy (error c) = true -> pdfUrl c = None) /\
  (error c = JNull \/ truthy (error c) = true).

(** A Submission Input is valid when a file is selected and the title is
    not blank. *)
Definition valid (c : State) : bool :=
  match file c with
  | None => false
  | Some _ => negb (blank (reportTitle c))
  end.

(** The transition of the specification's machine that an event stands
    for; [None] for an event the machine does not mention. *)
Definition label (ev : Event) (w : World State) : option Label :=
  match ev with
  | Submit =>
      if loading (comp w) then None
      else Some (if valid (comp w) then submit_valid else submit_invalid)
  | Settle id o =>
      if in_dec Nat.eq_dec id (inflight (env w))
      then Some (if settles_ok o then resolve_ok else resolve_err)
      else None
  | _ => None
  end.

(** Between two events: either nothing is in flight and the form is not
    loading, or exactly one request is and the form is loading with no
    message and no preview. *)
Definition inv (w : World State) : Prop :=
  store_ok (env w) /\
  (forall n, pdfUrl (comp w) = Some (BlobURL n) -> n < minted (env w)) /\
  exclusive (comp w) /\
  ((loading (comp w) = false /\ inflight (env w) = []) \/
   (loading (comp w) = true /\ exists id, inflight (env w) = [id])).

(** The element tree that [ReportGenerator] returns (lines 53-102), down
    to the parts that depend on state. *)
Record Preview := mkPreview {
  iframe_src : ObjectURL;       (* [<iframe src={pdfUrl}>] *)
  link_href : ObjectURL;        (* [<a href={pdfUrl}>] *)
  link_download : jsstring      (* [download={`${reportTitle || "report"}.pdf`}] *)
}.

Record View := mkView {
  title_value : jsstring;       (* [value={reportTitle}] *)
  error_slot : Slot json;       (* [{error && <p>{error}</p>}] *)
  button_disabled : bool;       (* [disabled={loading}] *)
  button_text : jsstring;       (* [{loading ? "Generating..." : "Generate PDF"}] *)
  preview_slot : Slot Preview   (* [{pdfUrl && (<div>...</div>)}] *)
}.

(** [{error && <p>{error}</p>}]: the falsy [error] itself, or the
    paragraph with [error] as its child; [None] when React refuses the
    child and throws. *)
Definition render_error (e : json) : option (Slot json) :=
  if truthy e then
    if printable e then Some (Element e) else None
  else Some (Falsy e).

(** [None]: the render throws, and React, having no error boundary here,
    unmounts the component; no further event reaches its handlers. The
    step relation does not cut such runs off: what is proved of every
    reachable world holds of the worlds a mounted component goes through. *)
Definition render (c : State) : option View :=
  match render_error (error c) with
  | None => None
  | Some slot =>
      Some
        (mkView
           (reportTitle c)
           slot
           (loading c)
           (if loading c then lit "Generating..." else lit "Generate PDF")
           (match pdfUrl c with
            | Some url =>
                Element
                  (mkPreview url url
                     (or_string (reportTitle c) (lit "report") ++ lit ".pdf"))
            | None => Falsy JNull
            end))
  end.

End ReportGenerator.

(** ** The second component: [App], which calls [analyzeData] *)

Module App.

Record State := mkState {
  name : jsstring;
  file : option File;
  pdfUrl : option ObjectURL;
  error : option jsstring
}.

Definition initial : State := mkState [] None None None.

Definition setName (v : jsstring) : M State unit :=
  modify_comp (fun c => mkState v (file c) (pdfUrl c) (error c)).
Definition setFile (v : option File) : M State unit :=
  modify_comp (fun c => mkState (name c) v (pdfUrl c) (error c)).
Definition setPdfUrl (v : option ObjectURL) : M State unit :=
  modify_comp (fun c => mkState (name c) (file c) v (error c)).
Definition setError (v : option jsstring) : M State unit :=
  modify_comp (fun c => mkState (name c) (file c) (pdfUrl c) v).

(** [!file] *)
Definition no_file (f : option File) : bool :=
  match f with None => true | Some _ => false end.

(** [handleSubmit], lines 10-24: up to the [await] inside [analyzeData]. *)
Definition handleSubmit : M State unit :=
  setError None ;;
  c <- get_comp ;;
  if jsstring_eqb (name c) [] || no_file (file c) then
    setError (Some (lit "Please enter a name and upload a CSV file."))
  else
    match file c with
    | Some f =>
        let formData := append (lit "agentName") (EString (name c)) [] in
        let formData := append (lit "file") (EFile f) formData in
        _ <- analyzeData formData ;;
        ret tt
    | None => ret tt   (* excluded by the test above *)
    end.

(** [handleSubmit], lines 23-28, from the point where the fetch inside
    [analyzeData] has settled. *)
Definition handleSubmit_settled (o : FetchOutcome) : M State unit :=
  try_catch
    (url <- analyzeData_settled o ;;
     setPdfUrl (Some url))
    (fun err => setError (Some (lit "Failed to generate PDF: " ++ message err))).

(** One event; the submit button is never disabled. *)
Definition step (ev : Event) (w : World State) : World State :=
  match ev with
  | ChangeTitle text => exec (setName text) w
  | ChangeFile f => exec (setFile f) w
  | Submit => exec handleSubmit w
  | Settle id o =>
      if in_dec Nat.eq_dec id (inflight (env w))
      then exec (handleSubmit_settled o) (settle id w)
      else w
  end.

Definition world0 : World State := mkWorld initial env0.

Definition run (evs : list Event) (w : World State) : World State :=
  fold_left (fun w ev => step ev w) evs w.

Inductive reachable : World State -> Prop :=
| reach_init : reachable world0
| reach_step ev w : reachable w -> reachable (step ev w).

(** What the rendering shows (lines 49-61): the message when [error] is
    truthy, the preview when [pdfUrl] is; the two are independent. *)
Definition shows_error (c : State) : bool :=
  match error c with
  | Some m => negb (jsstring_eqb m [])
  | None => false
  end.

Definition shows_preview (c : State) : bool :=
  match pdfUrl c with
  | Some _ => true
  | None => false
  end.

(** A Submission Input that [handleSubmit] lets through. *)
Definition valid (c : State) : bool :=
  negb (jsstring_eqb (name c) []) && negb (no_file (file c)).

(** Every object URL in sight is one of those minted so far. *)
Definition inv (w : World State) : Prop :=
  store_ok (env w) /\
  (forall n, pdfUrl (comp w) = Some (BlobURL n) -> n < minted (env w)).

(** The element tree that [App] returns (lines 31-63), down to the parts
    that depend on state. *)
Record View := mkView {
  name_value : jsstring;        (* [value={name}] *)
  error_slot : Slot jsstring;   (* [{error && <p>{error}</p>}] *)
  preview_slot : Slot ObjectURL (* [{pdfUrl && (<div>...<iframe src={pdfUrl}>...)}] *)
}.

Definition render (c : State) : View :=
  mkView
    (name c)
    (match error c with
     | Some m => if jsstring_eqb m [] then Falsy (JStr m) else Element m
     | None => Falsy JNull
     end)
    (match pdfUrl c with
     | Some url => Element url
     | None => Falsy JNull
     end).

End App.

(** ** Message texts, sample inputs and named worlds *)

Definition sample_csv : File := mkFile (lit "data.csv") (lit "a,b\n1,2").
Definition sample_pdf : Blob := mkBlob (lit "%PDF-1.4").

(** The worlds used as concrete inputs below: a mounted component after
    the user has typed a title and picked a file. *)
Definition rg_world (title : jsstring) (f : option File) : World ReportGenerator.State :=
  ReportGenerator.run [ChangeTitle title; ChangeFile f] ReportGenerator.world0.

Definition app_world (name : jsstring) (f : option File) : World App.State :=
  App.run [ChangeTitle name; ChangeFile f] App.world0.

(** The fixed texts of the handlers. *)
Definition network_error : jsstring := lit "Network error. Please try again.".
Definition generic_failure : jsstring := lit "Failed to generate report.".
Definition pdf_failure : jsstring := lit "Failed to generate PDF: ".
Definition server_error : jsstring := lit "Server error: ".

(** The [catch] branch of [ReportGenerator]: message set, [loading]
    cleared by [finally], nothing else touched. *)
Definition rg_caught (w : World ReportGenerator.State) : World ReportGenerator.State :=
  mkWorld
    (ReportGenerator.mkState
       (ReportGenerator.reportTitle (comp w)) (ReportGenerator.file (comp w))
       false (ReportGenerator.pdfUrl (comp w)) (JStr network_error))
    (env w).

(** [err.error] for a parsed body other than [null]. *)
Definition error_member (v : json) : option json :=
  match v with
  | JObj members => get_member (lit "error") members
  | _ => None
  end.

(** The [catch] branch of [App]. *)
Definition app_caught (a : World App.State) (m : jsstring) : World App.State :=
  mkWorld
    (App.mkState (App.name (comp a)) (App.file (comp a)) (App.pdfUrl (comp a))
       (Some (pdf_failure ++ m)))
    (env a).

(** Sample responses. *)
Definition bad_data : Response :=
  mkResponse 500 (Some (JObj [(lit "error", JStr (lit "bad data"))])) (inl (mkBlob [])).
Definition bad_gateway : Response :=
  mkResponse 502 None (inl (mkBlob (lit "<html>Bad Gateway</html>"))).
Definition pdf_response : Response :=
  mkResponse 200 None (inl sample_pdf).
Definition unreachable : FetchOutcome :=
  Rejected (mkExn (lit "Failed to fetch")).

(** The response of a backend whose own error text is the network text. *)
Definition echo_network_error : Response :=
  mkResponse 500
    (Some (JObj [(lit "error", JStr (lit "Network error. Please try again."))]))
    (inl (mkBlob [])).

(** ** Vocabulary for the further properties *)

(** A string that does not begin with white space. *)
Definition starts_clean (u : jsstring) : Prop :=
  match u with
  | [] => True
  | c :: _ => is_white_space c = false
  end.

(** The shape of every request [ReportGenerator] issues. *)
Definition rg_request_ok (req : Request) : Prop :=
  exists f t,
    req = mkRequest (lit "http://localhost:8000/api/analyze") (lit "POST")
            [(lit "file", EFile f); (lit "reportTitle", EString t)] /\
    t <> [] /\ trim t = t.

(** The shape of every request [App] issues. *)
Definition app_request_ok (req : Request) : Prop :=
  exists f n,
    req = mkRequest (lit "/api/analyze") (lit "POST")
            [(lit "agentName", EString n); (lit "file", EFile f)] /\
    n <> [].

Definition is_submit (ev : Event) : bool :=
  match ev with
  | Submit => true
  | _ => false
  end.

(** More sample responses: an error body that uses another key, and a 2xx
    response whose body cannot be read. *)
Definition message_key : Response :=
  mkResponse 422 (Some (JObj [(lit "message", JStr (lit "bad data"))])) (inl (mkBlob [])).
Definition truncated : Response :=
  mkResponse 200 None (inr (mkExn (lit "network error"))).

Unset Implicit Arguments.

(** ** Strings: trimming and searching *)

Arguments lit : simpl never.
Arguments trim : simpl never.
Arguments decimal : simpl never.

Lemma trimStart_nil_blank (s : jsstring) :
  trimStart s = [] <-> blank s = true.
Proof.
  induction s as [|c s IH]; simpl.
  - tauto.
  - destruct (is_white_space c); simpl.
    + exact IH.
    + split; discriminate.
Qed.

Lemma trimStart_head (s : jsstring) :
  match trimStart s with
  | [] => True
  | c :: _ => is_white_space c = false
  end.
Proof.
  induction s as [|c s IH]; simpl; auto.
  destruct (is_white_space c) eqn:E; auto.
Qed.

Lemma blank_rev (s : jsstring) : blank (rev s) = blank s.
Proof.
  unfold blank. induction s as [|c s IH]; simpl; auto.
  rewrite forallb_app, IH. simpl. rewrite andb_true_r. apply andb_comm.
Qed.

Lemma trim_nil_blank (s : jsstring) : trim s = [] <-> blank s = true.
Proof.
  split.
  - unfold trim, trimEnd. intros H.
    apply (f_equal (@rev N)) in H. rewrite rev_involutive in H. simpl in H.
    apply trimStart_nil_blank in H. rewrite blank_rev in H.
    pose proof (trimStart_head s) as Hh.
    destruct (trimStart s) as [|c t] eqn:E.
    + now apply trimStart_nil_blank.
    + simpl in H. rewrite Hh in H. discriminate.
  - intros H. apply trimStart_nil_blank in H.
    unfold trim, trimEnd. now rewrite H.
Qed.

(** The test [!title.trim()] is the test for a blank title. *)
Lemma trim_empty_test (s : jsstring) : jsstring_eqb (trim s) [] = blank s.
Proof.
  unfold jsstring_eqb.
  destruct (jsstring_eq_dec (trim s) []) as [E|E];
    destruct (blank s) eqn:B; auto.
  - apply trim_nil_blank in E. congruence.
  - apply trim_nil_blank in B. contradiction.
Qed.

Lemma empty_test (s : jsstring) : jsstring_eqb s [] = true <-> s = [].
Proof.
  unfold jsstring_eqb. destruct (jsstring_eq_dec s []); split; congruence.
Qed.

Lemma empty_test_false (s : jsstring) : jsstring_eqb s [] = false <-> s <> [].
Proof.
  unfold jsstring_eqb. destruct (jsstring_eq_dec s []); split; congruence.
Qed.

Lemma is_prefix_refl (s : jsstring) : is_prefix s s = true.
Proof. induction s; simpl; auto. now rewrite N.eqb_refl. Qed.

Lemma includes_suffix (p s : jsstring) : includes (p ++ s) s = true.
Proof.
  induction p as [|c p IH]; simpl.
  - destruct s; simpl; auto. now rewrite N.eqb_refl, is_prefix_refl.
  - rewrite IH. apply orb_true_r.
Qed.

(** ** Strings as USVStrings *)

Lemma white_space_not_surrogate (c : N) :
  is_white_space c = true ->
  is_high_surrogate c = false /\ is_low_surrogate c = false.
Proof.
  unfold is_white_space, is_high_surrogate, is_low_surrogate.
  rewrite !orb_true_iff, !andb_true_iff, !N.eqb_eq, !N.leb_le.
  intros H. split; apply andb_false_iff; rewrite !N.leb_gt; lia.
Qed.

Lemma surrogate_not_white_space (c : N) :
  is_high_surrogate c = true \/ is_low_surrogate c = true ->
  is_white_space c = false.
Proof.
  intros H. destruct (is_white_space c) eqn:E; auto.
  apply white_space_not_surrogate in E. destruct E, H; congruence.
Qed.

(** A text without surrogates is its own USVString. *)
Lemma to_usv_plain (t : jsstring) :
  Forall (fun c => is_high_surrogate c = false /\ is_low_surrogate c = false) t ->
  to_usv t = t.
Proof.
  induction 1 as [|c t [Hh Hl] _ IH]; simpl; auto.
  now rewrite Hh, Hl, IH.
Qed.

(** The conversion keeps the length and puts U+FFFD only where a surrogate
    stood, so white space stays where it is and nothing becomes white
    space. *)
Lemma to_usv_white_space_bounded (n : nat) (s : jsstring) :
  List.length s <= n ->
  Forall2 (fun c d => is_white_space d = is_white_space c) s (to_usv s).
Proof.
  revert s. induction n as [|n IH]; intros s H.
  - destruct s; [constructor|simpl in H; lia].
  - destruct s as [|c s]; [constructor|]. simpl in H.
    cbn [to_usv].
    destruct (is_high_surrogate c) eqn:Hh.
    + assert (Wc : is_white_space c = false)
        by (apply surrogate_not_white_space; auto).
      destruct s as [|d s].
      * constructor; [now rewrite Wc|constructor].
      * destruct (is_low_surrogate d) eqn:Hd.
        -- constructor; [reflexivity|]. constructor; [reflexivity|].
           apply IH. simpl in H. lia.
        -- constructor; [now rewrite Wc|]. apply IH. lia.
    + destruct (is_low_surrogate c) eqn:Hl.
      * assert (Wc : is_white_space c = false)
          by (apply surrogate_not_white_space; auto).
        constructor; [now rewrite Wc|]. apply IH. lia.
      * constructor; [reflexivity|]. apply IH. lia.
Qed.

Lemma to_usv_white_space (s : jsstring) :
  Forall2 (fun c d => is_white_space d = is_white_space c) s (to_usv s).
Proof. now apply to_usv_white_space_bounded with (n := List.length s). Qed.

Lemma to_usv_nonempty (s : jsstring) : s <> [] -> to_usv s <> [].
Proof.
  intros H E. pose proof (to_usv_white_space s) as F.
  rewrite E in F. inversion F. congruence.
Qed.

Lemma Forall2_rev_white_space (s u : jsstring) :
  Forall2 (fun c d => is_white_space d = is_white_space c) s u ->
  Forall2 (fun c d => is_white_space d = is_white_space c) (rev s) (rev u).
Proof.
  induction 1 as [|c d s u R _ IH]; simpl; [constructor|].
  apply Forall2_app; [exact IH|]. constructor; [exact R|constructor].
Qed.

(** ** Validation *)

Ltac unfold_js :=
  unfold exec,
    ReportGenerator.handleSubmit, ReportGenerator.handleSubmit_settled,
    ReportGenerator.setError, ReportGenerator.setPdfUrl,
    ReportGenerator.setLoading, ReportGenerator.setFile,
    ReportGenerator.setReportTitle,
    App.handleSubmit, App.handleSubmit_settled,
    App.setError, App.setPdfUrl, App.setFile, App.setName,
    analyzeData, analyzeData_settled, get_error,
    await_fetch, await_json, await_blob,
    try_finally, try_catch, bind, ret, throw, modify_comp, get_comp,
    fetch, createObjectURL, settle in *.

Lemma rg_blank_title (w : World ReportGenerator.State) (f : File) :
  ReportGenerator.file (comp w) = Some f ->
  blank (ReportGenerator.reportTitle (comp w)) = true ->
  exec ReportGenerator.handleSubmit w
  = mkWorld
      (ReportGenerator.mkState
         (ReportGenerator.reportTitle (comp w)) (Some f)
         (ReportGenerator.loading (comp w)) None
         (JStr (lit "Please enter a report title.")))
      (env w).
Proof.
  destruct w as [[t f' l p e] en]. simpl. intros -> B.
  unfold_js. simpl. rewrite trim_empty_test, B. reflexivity.
Qed.

Lemma rg_no_file (w : World ReportGenerator.State) :
  ReportGenerator.file (comp w) = None ->
  exec ReportGenerator.handleSubmit w
  = mkWorld
      (ReportGenerator.mkState
         (ReportGenerator.reportTitle (comp w)) None
         (ReportGenerator.loading (comp w)) None
         (JStr (lit "Please upload a CSV file.")))
      (env w).
Proof.
  destruct w as [[t f' l p e] en]. simpl. intros ->.
  unfold_js. reflexivity.
Qed.

Lemma rg_valid (w : World ReportGenerator.State) (f : File) :
  ReportGenerator.file (comp w) = Some f ->
  blank (ReportGenerator.reportTitle (comp w)) = false ->
  exec ReportGenerator.handleSubmit w
  = mkWorld
      (ReportGenerator.mkState
         (ReportGenerator.reportTitle (comp w)) (Some f) true None JNull)
      (mkEnv
         (sent (env w) ++
          [mkRequest (lit "http://localhost:8000/api/analyze") (lit "POST")
             [(lit "file", EFile f);
              (lit "reportTitle",
               EString (to_usv (trim (ReportGenerator.reportTitle (comp w)))))]])
         (inflight (env w) ++ [List.length (sent (env w))])
         (minted (env w)) (blob_urls (env w))).
Proof.
  destruct w as [[t f' l p e] en]. simpl. intros -> B.
  unfold_js. simpl. rewrite trim_empty_test, B. reflexivity.
Qed.

Lemma app_invalid (w : World App.State) :
  App.name (comp w) = [] \/ App.file (comp w) = None ->
  exec App.handleSubmit w
  = mkWorld
      (App.mkState (App.name (comp w)) (App.file (comp w)) (App.pdfUrl (comp w))
         (Some (lit "Please enter a name and upload a CSV file.")))
      (env w).
Proof.
  destruct w as [[n f p e] en]. simpl. intros H.
  unfold_js. simpl.
  replace (jsstring_eqb n [] || App.no_file f) with true; [reflexivity|].
  symmetry. apply orb_true_iff.
  destruct H as [->| ->]; [left|right]; reflexivity.
Qed.

Lemma app_valid (w : World App.State) (f : File) :
  App.file (comp w) = Some f ->
  App.name (comp w) <> [] ->
  exec App.handleSubmit w
  = mkWorld
      (App.mkState (App.name (comp w)) (Some f) (App.pdfUrl (comp w)) None)
      (mkEnv
         (sent (env w) ++
          [mkRequest (lit "/api/analyze") (lit "POST")
             [(lit "agentName", EString (to_usv (App.name (comp w))));
              (lit "file", EFile f)]])
         (inflight (env w) ++ [List.length (sent (env w))])
         (minted (env w)) (blob_urls (env w))).
Proof.
  destruct w as [[n f' p e] en]. simpl. intros -> N.
  apply empty_test_false in N.
  unfold_js. simpl. rewrite N. reflexivity.
Qed.

(** C10. In [ReportGenerator] the file is checked before the title: with no
    file selected the message is "Please upload a CSV file.", whatever the
    title, blank included. In [App] one combined message, "Please enter a
    name and upload a CSV file.", answers either missing field. *)
Theorem C10_validation_order
    (w : World ReportGenerator.State) (a : World App.State)
    (Hfile : ReportGenerator.file (comp w) = None)
    (Hmissing : App.name (comp a) = [] \/ App.file (comp a) = None) :
  ReportGenerator.error (comp (exec ReportGenerator.handleSubmit w))
    = JStr (lit "Please upload a CSV file.") /\
  App.error (comp (exec App.handleSubmit a))
    = Some (lit "Please enter a name and upload a CSV file.").
Proof.
  rewrite (rg_no_file w Hfile), (app_invalid a Hmissing). split; reflexivity.
Qed.

Lemma C10_validation_order_witness :
  ReportGenerator.error
    (comp (exec ReportGenerator.handleSubmit (rg_world (lit "  ") None)))
    = JStr (lit "Please upload a CSV file.") /\
  App.error
    (comp (exec App.handleSubmit (app_world (lit "Ann") None)))
    = Some (lit "Please enter a name and upload a CSV file.").
Proof.
  apply (@C10_validation_order (rg_world (lit "  ") None) (app_world (lit "Ann") None)).
  - reflexivity.
  - right. reflexivity.
Defined.

(** C1, as amended. In [ReportGenerator], a submit with a file selected and
    a blank (empty or white-space-only) title issues no request and leaves
    the form Failed with "Please enter a report title."; in [App], a submit
    with an empty name issues no request and leaves the message "Please
    enter a name and upload a CSV file.". *)
Theorem C1_blank_title_rejected
    (w : World ReportGenerator.State) (f : File) (a : World App.State)
    (Hfile : ReportGenerator.file (comp w) = Some f)
    (Hblank : blank (ReportGenerator.reportTitle (comp w)) = true)
    (Hidle : ReportGenerator.loading (comp w) = false)
    (Hname : App.name (comp a) = []) :
  let w' := ReportGenerator.step Submit w in
  let a' := App.step Submit a in
  env w' = env w /\
  ReportGenerator.result (comp w') = ReportGenerator.RFailed (JStr (lit "Please enter a report title.")) /\
  env a' = env a /\
  App.error (comp a') = Some (lit "Please enter a name and upload a CSV file.").
Proof.
  simpl. rewrite Hidle.
  rewrite (rg_blank_title w f Hfile Hblank), (app_invalid a (or_introl Hname)).
  simpl. rewrite Hidle. repeat split; reflexivity.
Qed.

Lemma C1_blank_title_rejected_witness :
  let w := rg_world (lit "   ") (Some sample_csv) in
  let a := app_world [] (Some sample_csv) in
  env (ReportGenerator.step Submit w) = env w /\
  ReportGenerator.result (comp (ReportGenerator.step Submit w))
    = ReportGenerator.RFailed (JStr (lit "Please enter a report title.")) /\
  env (App.step Submit a) = env a /\
  App.error (comp (App.step Submit a))
    = Some (lit "Please enter a name and upload a CSV file.").
Proof.
  apply (@C1_blank_title_rejected
           (rg_world (lit "   ") (Some sample_csv)) sample_csv
           (app_world [] (Some sample_csv)));
    reflexivity.
Defined.

(** C1 as stated fails twice: in [ReportGenerator] a blank title with no
    file selected gets the file message, which does not mention the title;
    in [App] a white-space-only name passes the check and a request is
    issued. *)
Lemma C1_counterexample :
  (let w := rg_world (lit " ") None in
   blank (ReportGenerator.reportTitle (comp w)) = true /\
   ReportGenerator.error (comp (ReportGenerator.step Submit w))
     = JStr (lit "Please upload a CSV file.") /\
   includes (lit "Please upload a CSV file.") (lit "title") = false) /\
  (let a := app_world (lit " ") (Some sample_csv) in
   blank (App.name (comp a)) = true /\
   List.length (sent (env (App.step Submit a))) = 1 /\
   App.error (comp (App.step Submit a)) = None).
Proof. vm_compute. repeat split; reflexivity. Qed.

(** C2, as amended. A submit with a file selected and a usable title issues
    exactly one request, a POST whose form data holds the file and the
    title: in [ReportGenerator] (title not blank) the fields are [file] and
    [reportTitle], the latter trimmed; in [App] (name not empty) they are
    [agentName], the name as typed, and [file]. As in every form data
    entry, a surrogate of the text that is not half of a pair is sent as
    U+FFFD; a text without such surrogates is sent unchanged. *)
Theorem C2_valid_submit_one_request
    (w : World ReportGenerator.State) (f : File)
    (a : World App.State) (g : File)
    (Hfile : ReportGenerator.file (comp w) = Some f)
    (Htitle : blank (ReportGenerator.reportTitle (comp w)) = false)
    (Hidle : ReportGenerator.loading (comp w) = false)
    (Hafile : App.file (comp a) = Some g)
    (Hname : App.name (comp a) <> []) :
  sent (env (ReportGenerator.step Submit w))
    = sent (env w) ++
      [mkRequest (lit "http://localhost:8000/api/analyze") (lit "POST")
         [(lit "file", EFile f);
          (lit "reportTitle",
           EString (to_usv (trim (ReportGenerator.reportTitle (comp w)))))]] /\
  sent (env (App.step Submit a))
    = sent (env a) ++
      [mkRequest (lit "/api/analyze") (lit "POST")
         [(lit "agentName", EString (to_usv (App.name (comp a))));
          (lit "file", EFile g)]] /\
  (forall t, Forall (fun c => is_high_surrogate c = false /\
                              is_low_surrogate c = false) t ->
             to_usv t = t).
Proof.
  simpl. rewrite Hidle.
  rewrite (rg_valid w f Hfile Htitle), (app_valid a g Hafile Hname).
  split; [reflexivity|]. split; [reflexivity|]. apply to_usv_plain.
Qed.

Lemma C2_valid_submit_one_request_witness :
  sent (env (ReportGenerator.step Submit (rg_world (lit " Q1 Report ") (Some sample_csv))))
    = [mkRequest (lit "http://localhost:8000/api/analyze") (lit "POST")
         [(lit "file", EFile sample_csv);
          (lit "reportTitle", EString (lit "Q1 Report"))]] /\
  sent (env (App.step Submit (app_world (lit "Ann") (Some sample_csv))))
    = [mkRequest (lit "/api/analyze") (lit "POST")
         [(lit "agentName", EString (lit "Ann"));
          (lit "file", EFile sample_csv)]] /\
  (forall t, Forall (fun c => is_high_surrogate c = false /\
                              is_low_surrogate c = false) t ->
             to_usv t = t).
Proof.
  apply (@C2_valid_submit_one_request
           (rg_world (lit " Q1 Report ") (Some sample_csv)) sample_csv
           (app_world (lit "Ann") (Some sample_csv)) sample_csv);
    try reflexivity.
  discriminate.
Defined.

(** C2 as stated fails in [App]: the name " Bob " is sent as typed, and no
    field of the request holds the trimmed "Bob". *)
Lemma C2_counterexample :
  let a := app_world (lit " Bob ") (Some sample_csv) in
  App.file (comp a) = Some sample_csv /\
  blank (App.name (comp a)) = false /\
  trim (App.name (comp a)) = lit "Bob" /\
  map req_body (sent (env (App.step Submit a)))
    = [[(lit "agentName", EString (lit " Bob "));
        (lit "file", EFile sample_csv)]].
Proof. vm_compute. repeat split; reflexivity. Qed.

(** ** Repeated invalid submits *)

Lemma rg_invalid_fixpoint (w : World ReportGenerator.State) :
  ReportGenerator.file (comp w) = None \/
  blank (ReportGenerator.reportTitle (comp w)) = true ->
  env (exec ReportGenerator.handleSubmit w) = env w /\
  exec ReportGenerator.handleSubmit (exec ReportGenerator.handleSubmit w)
  = exec ReportGenerator.handleSubmit w.
Proof.
  intros H.
  destruct (ReportGenerator.file (comp w)) as [f|] eqn:F.
  - destruct H as [H|B]; [discriminate|].
    rewrite (rg_blank_title w f F B). split; [reflexivity|].
    now rewrite rg_blank_title with (f := f).
  - rewrite (rg_no_file w F). split; [reflexivity|].
    now rewrite rg_no_file.
Qed.

Lemma app_invalid_fixpoint (a : World App.State) :
  App.name (comp a) = [] \/ App.file (comp a) = None ->
  env (exec App.handleSubmit a) = env a /\
  exec App.handleSubmit (exec App.handleSubmit a) = exec App.handleSubmit a.
Proof.
  intros H. rewrite (app_invalid a H). split; [reflexivity|].
  now rewrite app_invalid.
Qed.

Lemma iter_fixpoint {A} (f : A -> A) (x : A) (n : nat) :
  f (f x) = f x -> Nat.iter (S n) f x = f x.
Proof.
  intros H. induction n as [|n IH]; [reflexivity|].
  change (f (Nat.iter (S n) f x) = f x). now rewrite IH.
Qed.

(** C9, as amended. A submit that validation rejects can be repeated any
    number of times: the world after [n+1] submits is the world after one,
    the form is Failed with the same message, and the requests issued are
    unchanged. Rejected are, in [ReportGenerator], a missing file or a blank
    title; in [App], a missing file or an empty name. *)
Theorem C9_invalid_submit_idempotent
    (w : World ReportGenerator.State) (a : World App.State) (n : nat)
    (Hinvalid : ReportGenerator.file (comp w) = None \/
                blank (ReportGenerator.reportTitle (comp w)) = true)
    (Hidle : ReportGenerator.loading (comp w) = false)
    (Hainvalid : App.name (comp a) = [] \/ App.file (comp a) = None) :
  Nat.iter (S n) (ReportGenerator.step Submit) w = ReportGenerator.step Submit w /\
  sent (env (ReportGenerator.step Submit w)) = sent (env w) /\
  ReportGenerator.kind (comp (ReportGenerator.step Submit w)) = Failed /\
  Nat.iter (S n) (App.step Submit) a = App.step Submit a /\
  sent (env (App.step Submit a)) = sent (env a) /\
  App.shows_error (comp (App.step Submit a)) = true.
Proof.
  destruct (rg_invalid_fixpoint w Hinvalid) as [E1 F1].
  destruct (app_invalid_fixpoint a Hainvalid) as [E2 F2].
  assert (S1 : ReportGenerator.step Submit w = exec ReportGenerator.handleSubmit w)
    by (simpl; now rewrite Hidle).
  assert (L1 : ReportGenerator.loading (comp (exec ReportGenerator.handleSubmit w)) = false).
  { destruct (ReportGenerator.file (comp w)) as [f|] eqn:F.
    - destruct Hinvalid as [H|B]; [discriminate|].
      now rewrite (rg_blank_title w f F B).
    - now rewrite (rg_no_file w F). }
  repeat split.
  - apply iter_fixpoint. rewrite S1. simpl. now rewrite L1.
  - now rewrite S1, E1.
  - rewrite S1.
    destruct (ReportGenerator.file (comp w)) as [f|] eqn:F.
    + destruct Hinvalid as [H|B]; [discriminate|].
      rewrite (rg_blank_title w f F B).
      unfold ReportGenerator.kind, ReportGenerator.result. simpl.
      now rewrite Hidle.
    + rewrite (rg_no_file w F).
      unfold ReportGenerator.kind, ReportGenerator.result. simpl.
      now rewrite Hidle.
  - apply iter_fixpoint. exact F2.
  - simpl. now rewrite E2.
  - simpl. now rewrite (app_invalid a Hainvalid).
Qed.

Lemma C9_invalid_submit_idempotent_witness :
  let w := rg_world (lit "Report") None in
  let a := app_world [] (Some sample_csv) in
  Nat.iter 5 (ReportGenerator.step Submit) w = ReportGenerator.step Submit w /\
  sent (env (ReportGenerator.step Submit w)) = sent (env w) /\
  ReportGenerator.kind (comp (ReportGenerator.step Submit w)) = Failed /\
  Nat.iter 5 (App.step Submit) a = App.step Submit a /\
  sent (env (App.step Submit a)) = sent (env a) /\
  App.shows_error (comp (App.step Submit a)) = true.
Proof.
  apply (@C9_invalid_submit_idempotent
           (rg_world (lit "Report") None) (app_world [] (Some sample_csv)) 4).
  - left. reflexivity.
  - reflexivity.
  - left. reflexivity.
Defined.

(** C9 as stated fails in [App]: a white-space-only name is not rejected,
    and every repeated submit issues one more request. *)
Lemma C9_counterexample :
  let a := app_world (lit "  ") (Some sample_csv) in
  blank (App.name (comp a)) = true /\
  App.error (comp (Nat.iter 3 (App.step Submit) a)) = None /\
  List.length (sent (env (Nat.iter 3 (App.step Submit) a))) = 3.
Proof. vm_compute. repeat split; reflexivity. Qed.

(** ** When the fetch settles *)

Lemma rg_step_settle (w : World ReportGenerator.State) id o :
  In id (inflight (env w)) ->
  ReportGenerator.step (Settle id o) w
  = exec (ReportGenerator.handleSubmit_settled o) (settle id w).
Proof.
  intros H. simpl. destruct (in_dec Nat.eq_dec id (inflight (env w))); tauto.
Qed.

Lemma app_step_settle (a : World App.State) id o :
  In id (inflight (env a)) ->
  App.step (Settle id o) a = exec (App.handleSubmit_settled o) (settle id a).
Proof.
  intros H. simpl. destruct (in_dec Nat.eq_dec id (inflight (env a))); tauto.
Qed.

Lemma rg_settled_rejected (w : World ReportGenerator.State) e :
  exec (ReportGenerator.handleSubmit_settled (Rejected e)) w = rg_caught w.
Proof. reflexivity. Qed.

Lemma rg_settled_unparseable (w : World ReportGenerator.State) r :
  ok r = false -> json_body r = None ->
  exec (ReportGenerator.handleSubmit_settled (Resolved r)) w = rg_caught w.
Proof.
  intros Hok Hj. unfold_js. simpl. rewrite Hok, Hj. reflexivity.
Qed.

Lemma rg_settled_null (w : World ReportGenerator.State) r :
  ok r = false -> json_body r = Some JNull ->
  exec (ReportGenerator.handleSubmit_settled (Resolved r)) w = rg_caught w.
Proof.
  intros Hok Hj. unfold_js. simpl. rewrite Hok, Hj. reflexivity.
Qed.

Lemma rg_settled_parsed (w : World ReportGenerator.State) r v :
  ok r = false -> json_body r = Some v -> v <> JNull ->
  exec (ReportGenerator.handleSubmit_settled (Resolved r)) w
  = mkWorld
      (ReportGenerator.mkState
         (ReportGenerator.reportTitle (comp w)) (ReportGenerator.file (comp w))
         false (ReportGenerator.pdfUrl (comp w))
         (or_default (error_member v) (JStr generic_failure)))
      (env w).
Proof.
  intros Hok Hj Hv. unfold_js. simpl. rewrite Hok, Hj. simpl.
  destruct v; try reflexivity. congruence.
Qed.

Lemma rg_settled_ok (w : World ReportGenerator.State) r b :
  ok r = true -> blob_body r = inl b ->
  exec (ReportGenerator.handleSubmit_settled (Resolved r)) w
  = mkWorld
      (ReportGenerator.mkState
         (ReportGenerator.reportTitle (comp w)) (ReportGenerator.file (comp w))
         false (Some (BlobURL (minted (env w)))) (ReportGenerator.error (comp w)))
      (mkEnv (sent (env w)) (inflight (env w)) (S (minted (env w)))
         ((BlobURL (minted (env w)), b) :: blob_urls (env w))).
Proof.
  intros Hok Hb. unfold_js. simpl. rewrite Hok, Hb. reflexivity.
Qed.

Lemma rg_settled_unreadable (w : World ReportGenerator.State) r e :
  ok r = true -> blob_body r = inr e ->
  exec (ReportGenerator.handleSubmit_settled (Resolved r)) w = rg_caught w.
Proof.
  intros Hok Hb. unfold_js. simpl. rewrite Hok, Hb. reflexivity.
Qed.

Lemma app_settled_rejected (a : World App.State) e :
  exec (App.handleSubmit_settled (Rejected e)) a = app_caught a (message e).
Proof. reflexivity. Qed.

Lemma app_settled_not_ok (a : World App.State) r :
  ok r = false ->
  exec (App.handleSubmit_settled (Resolved r)) a
  = app_caught a (server_error ++ decimal (status r)).
Proof.
  intros Hok. unfold_js. simpl. rewrite Hok. reflexivity.
Qed.

Lemma app_settled_ok (a : World App.State) r b :
  ok r = true -> blob_body r = inl b ->
  exec (App.handleSubmit_settled (Resolved r)) a
  = mkWorld
      (App.mkState (App.name (comp a)) (App.file (comp a))
         (Some (BlobURL (minted (env a)))) (App.error (comp a)))
      (mkEnv (sent (env a)) (inflight (env a)) (S (minted (env a)))
         ((BlobURL (minted (env a)), b) :: blob_urls (env a))).
Proof.
  intros Hok Hb. unfold_js. simpl. rewrite Hok, Hb. reflexivity.
Qed.

Lemma app_settled_unreadable (a : World App.State) r e :
  ok r = true -> blob_body r = inr e ->
  exec (App.handleSubmit_settled (Resolved r)) a = app_caught a (message e).
Proof.
  intros Hok Hb. unfold_js. simpl. rewrite Hok, Hb. reflexivity.
Qed.

Lemma pdf_failure_server_error (d : jsstring) :
  pdf_failure ++ server_error ++ d
  = lit "Failed to generate PDF: Server error: " ++ d.
Proof. unfold pdf_failure, server_error, lit. reflexivity. Qed.

(** C3, as amended. When the backend answers a valid submit with a non-2xx
    status: in [ReportGenerator], if the body parses to an object whose
    [error] member is a non-empty string, the form becomes Failed with
    exactly that string; in [App] the body is not read and the message is
    "Failed to generate PDF: Server error: " followed by the status. *)
Theorem C3_server_message
    (w : World ReportGenerator.State) (id : nat) (r : Response)
    (members : list (jsstring * json)) (msg : jsstring)
    (a : World App.State) (aid : nat) (s : Response)
    (Hflight : In id (inflight (env w)))
    (Hstatus : ok r = false)
    (Hbody : json_body r = Some (JObj members))
    (Hmember : get_member (lit "error") members = Some (JStr msg))
    (Hmsg : msg <> [])
    (Haflight : In aid (inflight (env a)))
    (Hastatus : ok s = false) :
  ReportGenerator.result (comp (ReportGenerator.step (Settle id (Resolved r)) w))
    = ReportGenerator.RFailed (JStr msg) /\
  App.error (comp (App.step (Settle aid (Resolved s)) a))
    = Some (lit "Failed to generate PDF: Server error: " ++ decimal (status s)).
Proof.
  rewrite rg_step_settle by exact Hflight.
  rewrite app_step_settle by exact Haflight.
  rewrite rg_settled_parsed with (v := JObj members) by (auto; discriminate).
  rewrite (app_settled_not_ok _ _ Hastatus).
  unfold app_caught. rewrite pdf_failure_server_error. simpl.
  apply empty_test_false in Hmsg.
  unfold ReportGenerator.result. simpl. rewrite Hmember. simpl.
  rewrite Hmsg. simpl. rewrite Hmsg. simpl. split; reflexivity.
Qed.

Lemma C3_server_message_witness :
  ReportGenerator.result
    (comp (ReportGenerator.step (Settle 0 (Resolved bad_data))
             (ReportGenerator.step Submit (rg_world (lit "Report") (Some sample_csv)))))
    = ReportGenerator.RFailed (JStr (lit "bad data")) /\
  App.error
    (comp (App.step (Settle 0 (Resolved bad_data))
             (App.step Submit (app_world (lit "Report") (Some sample_csv)))))
    = Some (lit "Failed to generate PDF: Server error: " ++ decimal 500).
Proof.
  apply (@C3_server_message
           (ReportGenerator.step Submit (rg_world (lit "Report") (Some sample_csv)))
           0 bad_data [(lit "error", JStr (lit "bad data"))] (lit "bad data")
           (App.step Submit (app_world (lit "Report") (Some sample_csv)))
           0 bad_data);
    try reflexivity.
  - left. reflexivity.
  - discriminate.
  - left. reflexivity.
Defined.

(** C3 as stated fails in [App]: on 500 with the body {"error":"bad data"}
    the message is built from the status, not taken from the body. *)
Lemma C3_counterexample :
  let a := App.step Submit (app_world (lit "Report") (Some sample_csv)) in
  inflight (env a) = [0] /\
  ok bad_data = false /\
  json_body bad_data = Some (JObj [(lit "error", JStr (lit "bad data"))]) /\
  App.error (comp (App.step (Settle 0 (Resolved bad_data)) a))
    = Some (lit "Failed to generate PDF: Server error: 500") /\
  lit "Failed to generate PDF: Server error: 500" <> lit "bad data".
Proof. vm_compute. repeat split; try reflexivity. discriminate. Qed.

(** C4, as amended. When the backend answers a valid submit with a non-2xx
    status and a body that is not JSON, no resource reference is produced
    and the form becomes Failed; in [App] the message is "Failed to generate
    PDF: Server error: " followed by the status code, which it therefore
    embeds. *)
Theorem C4_unparseable_error_body
    (w : World ReportGenerator.State) (id : nat) (r : Response)
    (a : World App.State) (aid : nat) (s : Response)
    (Hflight : In id (inflight (env w)))
    (Hstatus : ok r = false)
    (Hbody : json_body r = None)
    (Haflight : In aid (inflight (env a)))
    (Hastatus : ok s = false)
    (Habody : json_body s = None) :
  let w' := ReportGenerator.step (Settle id (Resolved r)) w in
  let a' := App.step (Settle aid (Resolved s)) a in
  (ReportGenerator.kind (comp w') = Failed /\
   blob_urls (env w') = blob_urls (env w) /\
   ReportGenerator.pdfUrl (comp w') = ReportGenerator.pdfUrl (comp w)) /\
  (exists m,
     App.error (comp a') = Some m /\
     m = lit "Failed to generate PDF: Server error: " ++ decimal (status s) /\
     includes m (decimal (status s)) = true /\
     App.shows_error (comp a') = true) /\
  blob_urls (env a') = blob_urls (env a) /\
  App.pdfUrl (comp a') = App.pdfUrl (comp a).
Proof.
  intros w' a'. subst w' a'.
  rewrite rg_step_settle by exact Hflight.
  rewrite app_step_settle by exact Haflight.
  rewrite (rg_settled_unparseable _ _ Hstatus Hbody).
  rewrite (app_settled_not_ok _ _ Hastatus).
  unfold app_caught. rewrite pdf_failure_server_error.
  repeat split.
  exists (lit "Failed to generate PDF: Server error: " ++ decimal (status s)).
  split; [reflexivity|]. split; [reflexivity|]. split.
  - apply includes_suffix.
  - reflexivity.
Qed.

Lemma C4_unparseable_error_body_witness :
  let w := ReportGenerator.step Submit (rg_world (lit "Report") (Some sample_csv)) in
  let a := App.step Submit (app_world (lit "Report") (Some sample_csv)) in
  let w' := ReportGenerator.step (Settle 0 (Resolved bad_gateway)) w in
  let a' := App.step (Settle 0 (Resolved bad_gateway)) a in
  (ReportGenerator.kind (comp w') = Failed /\
   blob_urls (env w') = blob_urls (env w) /\
   ReportGenerator.pdfUrl (comp w') = ReportGenerator.pdfUrl (comp w)) /\
  (exists m,
     App.error (comp a') = Some m /\
     m = lit "Failed to generate PDF: Server error: " ++ decimal 502 /\
     includes m (decimal 502) = true /\
     App.shows_error (comp a') = true) /\
  blob_urls (env a') = blob_urls (env a) /\
  App.pdfUrl (comp a') = App.pdfUrl (comp a).
Proof.
  apply (@C4_unparseable_error_body
           (ReportGenerator.step Submit (rg_world (lit "Report") (Some sample_csv)))
           0 bad_gateway
           (App.step Submit (app_world (lit "Report") (Some sample_csv)))
           0 bad_gateway);
    try reflexivity; left; reflexivity.
Defined.

(** C4 as stated fails in [ReportGenerator]: on 502 with a body that is not
    JSON the message shown is "Network error. Please try again.", which
    does not contain the status code. *)
Lemma C4_counterexample :
  let w := ReportGenerator.step Submit (rg_world (lit "Report") (Some sample_csv)) in
  inflight (env w) = [0] /\
  ok bad_gateway = false /\
  json_body bad_gateway = None /\
  ReportGenerator.error (comp (ReportGenerator.step (Settle 0 (Resolved bad_gateway)) w))
    = JStr (lit "Network error. Please try again.") /\
  includes (lit "Network error. Please try again.") (decimal (status bad_gateway)) = false.
Proof. vm_compute. repeat split; reflexivity. Qed.

(** C5, as amended. When the request of a valid submit cannot complete at
    all, the form becomes Failed: in [ReportGenerator] with "Network error.
    Please try again.", in [App] with "Failed to generate PDF: " followed by
    the message of the transport failure. In [ReportGenerator] this differs
    from the message for a non-2xx response whose body parses to a JSON
    value other than [null], unless the body's [error] member is that very
    text; in [App] it differs from the message for a non-2xx response unless
    the transport failure's own message reads "Server error: <status>". *)
Theorem C5_network_failure
    (w : World ReportGenerator.State) (id : nat) (e : Exn)
    (r : Response) (v : json)
    (a : World App.State) (aid : nat) (s : Response)
    (Hflight : In id (inflight (env w)))
    (Hstatus : ok r = false)
    (Hbody : json_body r = Some v)
    (Hnonnull : v <> JNull)
    (Hother : error_member v <> Some (JStr (lit "Network error. Please try again.")))
    (Haflight : In aid (inflight (env a)))
    (Hastatus : ok s = false)
    (Hamsg : message e <> lit "Server error: " ++ decimal (status s)) :
  ReportGenerator.result (comp (ReportGenerator.step (Settle id (Rejected e)) w))
    = ReportGenerator.RFailed (JStr (lit "Network error. Please try again.")) /\
  ReportGenerator.error (comp (ReportGenerator.step (Settle id (Resolved r)) w))
    <> JStr (lit "Network error. Please try again.") /\
  App.error (comp (App.step (Settle aid (Rejected e)) a))
    = Some (lit "Failed to generate PDF: " ++ message e) /\
  App.error (comp (App.step (Settle aid (Resolved s)) a))
    <> App.error (comp (App.step (Settle aid (Rejected e)) a)).
Proof.
  rewrite !rg_step_settle by exact Hflight.
  rewrite !app_step_settle by exact Haflight.
  rewrite rg_settled_rejected, app_settled_rejected.
  rewrite (rg_settled_parsed _ _ _ Hstatus Hbody Hnonnull).
  rewrite (app_settled_not_ok _ _ Hastatus).
  split; [reflexivity|]. split; [|split; [reflexivity|]].
  - cbn [comp ReportGenerator.error].
    destruct (error_member v) as [x|]; cbn [or_default].
    + destruct (truthy x).
      * intros ->. now apply Hother.
      * intros H. vm_compute in H. discriminate.
    + intros H. vm_compute in H. discriminate.
  - cbn [comp App.error app_caught]. intros H.
    injection H as H. apply Hamsg. symmetry. exact H.
Qed.

Lemma C5_network_failure_witness :
  let w := ReportGenerator.step Submit (rg_world (lit "Report") (Some sample_csv)) in
  let a := App.step Submit (app_world (lit "Report") (Some sample_csv)) in
  ReportGenerator.result (comp (ReportGenerator.step (Settle 0 unreachable) w))
    = ReportGenerator.RFailed (JStr (lit "Network error. Please try again.")) /\
  ReportGenerator.error (comp (ReportGenerator.step (Settle 0 (Resolved bad_data)) w))
    <> JStr (lit "Network error. Please try again.") /\
  App.error (comp (App.step (Settle 0 unreachable) a))
    = Some (lit "Failed to generate PDF: " ++ lit "Failed to fetch") /\
  App.error (comp (App.step (Settle 0 (Resolved bad_data)) a))
    <> App.error (comp (App.step (Settle 0 unreachable) a)).
Proof.
  apply (@C5_network_failure
           (ReportGenerator.step Submit (rg_world (lit "Report") (Some sample_csv)))
           0 (mkExn (lit "Failed to fetch")) bad_data
           (JObj [(lit "error", JStr (lit "bad data"))])
           (App.step Submit (app_world (lit "Report") (Some sample_csv)))
           0 bad_data);
    try reflexivity; try (left; reflexivity); try discriminate.
Defined.

(** C5 as stated fails in [ReportGenerator]: a 502 whose body is not JSON,
    and a 500 whose [error] member is the network text, both leave the form
    exactly as an unreachable network does. *)
Lemma C5_counterexample :
  let w := ReportGenerator.step Submit (rg_world (lit "Report") (Some sample_csv)) in
  inflight (env w) = [0] /\
  ok bad_gateway = false /\
  ok echo_network_error = false /\
  comp (ReportGenerator.step (Settle 0 (Resolved bad_gateway)) w)
    = comp (ReportGenerator.step (Settle 0 unreachable) w) /\
  comp (ReportGenerator.step (Settle 0 (Resolved echo_network_error)) w)
    = comp (ReportGenerator.step (Settle 0 unreachable) w) /\
  ReportGenerator.error (comp (ReportGenerator.step (Settle 0 unreachable) w))
    = JStr (lit "Network error. Please try again.").
Proof. vm_compute. repeat split; reflexivity. Qed.

(** ** Case analysis of the two halves of [handleSubmit] *)

Lemma or_default_truthy (m : option json) (d : json) :
  truthy d = true -> truthy (or_default m d) = true.
Proof.
  intros H. destruct m as [x|]; simpl; auto.
  destruct (truthy x) eqn:E; auto.
Qed.

Lemma rg_submit_cases (w : World ReportGenerator.State) :
  (ReportGenerator.valid (comp w) = false /\
   exists m, truthy m = true /\
     exec ReportGenerator.handleSubmit w
     = mkWorld
         (ReportGenerator.mkState
            (ReportGenerator.reportTitle (comp w)) (ReportGenerator.file (comp w))
            (ReportGenerator.loading (comp w)) None m)
         (env w)) \/
  (ReportGenerator.valid (comp w) = true /\
   exists req,
     exec ReportGenerator.handleSubmit w
     = mkWorld
         (ReportGenerator.mkState
            (ReportGenerator.reportTitle (comp w)) (ReportGenerator.file (comp w))
            true None JNull)
         (mkEnv (sent (env w) ++ [req])
            (inflight (env w) ++ [List.length (sent (env w))])
            (minted (env w)) (blob_urls (env w)))).
Proof.
  unfold ReportGenerator.valid.
  destruct (ReportGenerator.file (comp w)) as [f|] eqn:F.
  - destruct (blank (ReportGenerator.reportTitle (comp w))) eqn:B.
    + left. split; [reflexivity|]. eexists. split.
      2: { rewrite (rg_blank_title w f F B). reflexivity. }
      reflexivity.
    + right. split; [reflexivity|]. eexists.
      rewrite (rg_valid w f F B). reflexivity.
  - left. split; [reflexivity|]. eexists. split.
    2: { rewrite (rg_no_file w F). reflexivity. }
    reflexivity.
Qed.

Lemma rg_settled_cases (o : FetchOutcome) (w : World ReportGenerator.State) :
  (settles_ok o = false /\
   exists m, truthy m = true /\
     exec (ReportGenerator.handleSubmit_settled o) w
     = mkWorld
         (ReportGenerator.mkState
            (ReportGenerator.reportTitle (comp w)) (ReportGenerator.file (comp w))
            false (ReportGenerator.pdfUrl (comp w)) m)
         (env w)) \/
  (settles_ok o = true /\
   exists b,
     exec (ReportGenerator.handleSubmit_settled o) w
     = mkWorld
         (ReportGenerator.mkState
            (ReportGenerator.reportTitle (comp w)) (ReportGenerator.file (comp w))
            false (Some (BlobURL (minted (env w)))) (ReportGenerator.error (comp w)))
         (mkEnv (sent (env w)) (inflight (env w)) (S (minted (env w)))
            ((BlobURL (minted (env w)), b) :: blob_urls (env w)))).
Proof.
  destruct o as [e|r]; simpl.
  - left. split; [reflexivity|]. exists (JStr network_error).
    split; [reflexivity|]. apply rg_settled_rejected.
  - destruct (ok r) eqn:Hok; simpl.
    + destruct (blob_body r) as [b|e] eqn:Hb.
      * right. split; [reflexivity|]. exists b. now apply rg_settled_ok.
      * left. split; [reflexivity|]. exists (JStr network_error).
        split; [reflexivity|]. now apply rg_settled_unreadable with (e := e).
    + left. split; [reflexivity|].
      destruct (json_body r) as [v|] eqn:Hj.
      * destruct v;
          try (eexists; split;
               [| apply (rg_settled_parsed _ _ _ Hok Hj); discriminate];
               apply or_default_truthy; reflexivity).
        exists (JStr network_error). split; [reflexivity|].
        now apply rg_settled_null.
      * exists (JStr network_error). split; [reflexivity|].
        now apply rg_settled_unparseable.
Qed.

Lemma app_submit_cases (a : World App.State) :
  (App.valid (comp a) = false /\
   exec App.handleSubmit a
   = mkWorld
       (App.mkState (App.name (comp a)) (App.file (comp a)) (App.pdfUrl (comp a))
          (Some (lit "Please enter a name and upload a CSV file.")))
       (env a)) \/
  (App.valid (comp a) = true /\
   exists req,
     exec App.handleSubmit a
     = mkWorld
         (App.mkState (App.name (comp a)) (App.file (comp a)) (App.pdfUrl (comp a)) None)
         (mkEnv (sent (env a) ++ [req])
            (inflight (env a) ++ [List.length (sent (env a))])
            (minted (env a)) (blob_urls (env a)))).
Proof.
  unfold App.valid.
  destruct (jsstring_eqb (App.name (comp a)) []) eqn:N; simpl.
  - left. split; [reflexivity|]. apply app_invalid. left. now apply empty_test.
  - destruct (App.file (comp a)) as [f|] eqn:F; simpl.
    + right. split; [reflexivity|]. eexists.
      rewrite (app_valid a f F) by now apply empty_test_false.
      reflexivity.
    + left. split; [reflexivity|].
      rewrite app_invalid by now right. now rewrite F.
Qed.

Lemma app_settled_cases (o : FetchOutcome) (a : World App.State) :
  (settles_ok o = false /\
   exists m, exec (App.handleSubmit_settled o) a = app_caught a m) \/
  (settles_ok o = true /\
   exists b,
     exec (App.handleSubmit_settled o) a
     = mkWorld
         (App.mkState (App.name (comp a)) (App.file (comp a))
            (Some (BlobURL (minted (env a)))) (App.error (comp a)))
         (mkEnv (sent (env a)) (inflight (env a)) (S (minted (env a)))
            ((BlobURL (minted (env a)), b) :: blob_urls (env a)))).
Proof.
  destruct o as [e|r]; simpl.
  - left. split; [reflexivity|]. eexists. apply app_settled_rejected.
  - destruct (ok r) eqn:Hok; simpl.
    + destruct (blob_body r) as [b|e] eqn:Hb.
      * right. split; [reflexivity|]. exists b. now apply app_settled_ok.
      * left. split; [reflexivity|]. eexists.
        now apply app_settled_unreadable with (e := e).
    + left. split; [reflexivity|]. eexists. now apply app_settled_not_ok.
Qed.

(** ** Invariants of [ReportGenerator] *)

Lemma rg_inv_init : ReportGenerator.inv ReportGenerator.world0.
Proof.
  unfold ReportGenerator.inv, ReportGenerator.exclusive, store_ok. simpl.
  repeat split; try discriminate; try tauto; auto.
Qed.

Lemma remove_single (id id0 : nat) :
  In id [id0] -> remove Nat.eq_dec id [id0] = [].
Proof.
  intros [->|[]]. simpl. destruct (Nat.eq_dec id id); congruence.
Qed.

Lemma rg_inv_step (ev : Event) (w : World ReportGenerator.State) :
  ReportGenerator.inv w -> ReportGenerator.inv (ReportGenerator.step ev w).
Proof.
  intros Hinv.
  pose proof Hinv as (Hs & Hp & (Hx1 & Hx2 & Hx3) & Hl).
  destruct ev as [t|f| |id o].
  - destruct w as [[? ? ? ? ?] ?]. exact Hinv.
  - destruct w as [[? ? ? ? ?] ?]. exact Hinv.
  - simpl. destruct (ReportGenerator.loading (comp w)) eqn:L; [exact Hinv|].
    destruct Hl as [[_ Hfl]|[Hl _]]; [|congruence].
    destruct (rg_submit_cases w) as [[V (m & Tm & E)]|[V (req & E)]]; rewrite E;
      unfold ReportGenerator.inv, ReportGenerator.exclusive; simpl.
    + rewrite L. repeat split; auto; discriminate.
    + rewrite Hfl. repeat split; auto; try discriminate.
      right. split; [reflexivity|]. eexists. reflexivity.
  - simpl. destruct (in_dec Nat.eq_dec id (inflight (env w))) as [Hin|Hout];
      [|exact Hinv].
    destruct Hl as [[_ Hfl]|[L (id0 & Hfl)]].
    { rewrite Hfl in Hin. destruct Hin. }
    destruct (Hx1 L) as [He Hu].
    assert (Hrm : remove Nat.eq_dec id (inflight (env w)) = [])
      by (rewrite Hfl in *; now apply remove_single).
    destruct (rg_settled_cases o (settle id w)) as [[V (m & Tm & E)]|[V (b & E)]];
      rewrite E; unfold ReportGenerator.inv, ReportGenerator.exclusive; simpl;
      rewrite Hrm.
    + repeat split; auto; discriminate.
    + rewrite He. repeat split; auto; try discriminate.
      * intros n b' [H|H].
        -- injection H as H _. simpl. lia.
        -- apply Hs in H. simpl. lia.
      * intros n H. injection H as H. lia.
Qed.

Lemma rg_reachable_inv (w : World ReportGenerator.State) :
  ReportGenerator.reachable w -> ReportGenerator.inv w.
Proof.
  induction 1 as [|ev w _ IH].
  - apply rg_inv_init.
  - now apply rg_inv_step.
Qed.

Lemma rg_reachable_run (evs : list Event) (w : World ReportGenerator.State) :
  ReportGenerator.reachable w -> ReportGenerator.reachable (ReportGenerator.run evs w).
Proof.
  revert w. induction evs as [|ev evs IH]; intros w H; simpl; auto.
  apply IH. now constructor.
Qed.

Lemma rg_kind_pending (c : ReportGenerator.State) :
  ReportGenerator.kind c = Pending <-> ReportGenerator.loading c = true.
Proof.
  unfold ReportGenerator.kind, ReportGenerator.result.
  destruct (ReportGenerator.loading c); [tauto|].
  destruct (truthy (ReportGenerator.error c));
    [|destruct (ReportGenerator.pdfUrl c)]; split; discriminate.
Qed.

(** C6, as amended. In [ReportGenerator], at every point of any sequence of
    user and settle events at most one request is in flight, and one is in
    flight exactly while the form is Pending; the submit button is disabled
    while Pending, so a submit then is ignored: no request is issued and
    nothing changes. [App] has no such guard: every submit with a name and
    a file issues one more request, whatever is in flight. *)
Theorem C6_single_flight
    (w : World ReportGenerator.State) (a : World App.State)
    (Hreach : ReportGenerator.reachable w)
    (Havalid : App.valid (comp a) = true) :
  List.length (inflight (env w)) <= 1 /\
  (ReportGenerator.kind (comp w) = Pending <-> inflight (env w) <> []) /\
  (ReportGenerator.kind (comp w) = Pending -> ReportGenerator.step Submit w = w) /\
  List.length (inflight (env (App.step Submit a))) = S (List.length (inflight (env a))) /\
  List.length (sent (env (App.step Submit a))) = S (List.length (sent (env a))).
Proof.
  destruct (rg_reachable_inv w Hreach) as (_ & _ & _ & Hl).
  rewrite rg_kind_pending.
  split; [|split; [|split]].
  - destruct Hl as [[_ ->]|[_ (id & ->)]]; simpl; lia.
  - destruct Hl as [[L ->]|[L (id & ->)]]; rewrite L; split;
      congruence || discriminate.
  - intros L. simpl. now rewrite L.
  - destruct (app_submit_cases a) as [[V _]|[_ (req & E)]]; [congruence|].
    simpl. rewrite E. simpl. rewrite !length_app. simpl. lia.
Qed.

Lemma C6_single_flight_witness :
  let w := ReportGenerator.step Submit (rg_world (lit "Report") (Some sample_csv)) in
  let a := App.step Submit (app_world (lit "Report") (Some sample_csv)) in
  List.length (inflight (env w)) <= 1 /\
  (ReportGenerator.kind (comp w) = Pending <-> inflight (env w) <> []) /\
  (ReportGenerator.kind (comp w) = Pending -> ReportGenerator.step Submit w = w) /\
  List.length (inflight (env (App.step Submit a))) = S (List.length (inflight (env a))) /\
  List.length (sent (env (App.step Submit a))) = S (List.length (sent (env a))).
Proof.
  apply (@C6_single_flight
           (ReportGenerator.step Submit (rg_world (lit "Report") (Some sample_csv)))
           (App.step Submit (app_world (lit "Report") (Some sample_csv)))).
  - apply ReportGenerator.reach_step.
    apply rg_reachable_run. apply ReportGenerator.reach_init.
  - reflexivity.
Defined.

(** C6 as stated fails in [App]: a second submit while the first request is
    still in flight issues a second request, and both are then in flight. *)
Lemma C6_counterexample :
  let a := App.run [Submit; Submit] (app_world (lit "Report") (Some sample_csv)) in
  inflight (env a) = [0; 1] /\
  List.length (sent (env a)) = 2.
Proof. vm_compute. split; reflexivity. Qed.

Lemma rg_step_machine (ev : Event) (w : World ReportGenerator.State) :
  ReportGenerator.inv w ->
  match ReportGenerator.label ev w with
  | Some l =>
      spec_machine (ReportGenerator.kind (comp w)) l
        (ReportGenerator.kind (comp (ReportGenerator.step ev w))) = true
  | None =>
      ReportGenerator.result (comp (ReportGenerator.step ev w))
      = ReportGenerator.result (comp w)
  end.
Proof.
  intros (Hs & Hp & (Hx1 & Hx2 & Hx3) & Hl).
  destruct ev as [t|f| |id o]; simpl.
  - reflexivity.
  - reflexivity.
  - destruct (ReportGenerator.loading (comp w)) eqn:L; [reflexivity|].
    assert (K : ReportGenerator.kind (comp w) <> Pending)
      by (rewrite rg_kind_pending; congruence).
    destruct (rg_submit_cases w) as [[V (m & Tm & E)]|[V (req & E)]];
      rewrite E, V; unfold ReportGenerator.kind at 2, ReportGenerator.result;
      simpl.
    + rewrite L, Tm.
      destruct (ReportGenerator.kind (comp w)); try reflexivity; congruence.
    + destruct (ReportGenerator.kind (comp w)); try reflexivity; congruence.
  - destruct (in_dec Nat.eq_dec id (inflight (env w))) as [Hin|Hout];
      [|reflexivity].
    destruct Hl as [[_ Hfl]|[L _]].
    { rewrite Hfl in Hin. destruct Hin. }
    destruct (Hx1 L) as [He Hu].
    assert (K : ReportGenerator.kind (comp w) = Pending)
      by now apply rg_kind_pending.
    rewrite K.
    destruct (rg_settled_cases o (settle id w)) as [[V (m & Tm & E)]|[V (b & E)]];
      rewrite E, V; unfold ReportGenerator.kind, ReportGenerator.result; simpl.
    + now rewrite Tm.
    + now rewrite He.
Qed.

(** C7, as amended. In [ReportGenerator] the form shows at most one of
    "loading", a message and a preview, so its Submission Result is exactly
    one of Idle, Pending, Success, Failed; and every event either leaves the
    result as it is (an edit, a submit while Pending, a settle of nothing in
    flight) or is a transition of the machine: submit(valid) from Idle,
    Success or Failed to Pending; submit(invalid) from Idle, Success or
    Failed to Failed; resolve(ok) from Pending to Success; resolve(err) from
    Pending to Failed. In [App] a submit leaves the preview in place. *)
Theorem C7_state_machine
    (w : World ReportGenerator.State) (ev : Event) (a : World App.State)
    (Hreach : ReportGenerator.reachable w) :
  ReportGenerator.exclusive (comp w) /\
  match ReportGenerator.label ev w with
  | Some l =>
      spec_machine (ReportGenerator.kind (comp w)) l
        (ReportGenerator.kind (comp (ReportGenerator.step ev w))) = true
  | None =>
      ReportGenerator.result (comp (ReportGenerator.step ev w))
      = ReportGenerator.result (comp w)
  end /\
  App.pdfUrl (comp (App.step Submit a)) = App.pdfUrl (comp a).
Proof.
  pose proof (rg_reachable_inv w Hreach) as Hinv.
  split; [apply Hinv|]. split; [now apply rg_step_machine|].
  simpl. destruct (app_submit_cases a) as [[_ E]|[_ (req & E)]];
    rewrite E; reflexivity.
Qed.

Lemma C7_state_machine_witness :
  let w := ReportGenerator.step Submit (rg_world (lit "Report") (Some sample_csv)) in
  let a := app_world [] None in
  ReportGenerator.exclusive (comp w) /\
  spec_machine Pending resolve_ok
    (ReportGenerator.kind
       (comp (ReportGenerator.step (Settle 0 (Resolved pdf_response)) w))) = true /\
  App.pdfUrl (comp (App.step Submit a)) = App.pdfUrl (comp a).
Proof.
  apply (@C7_state_machine
           (ReportGenerator.step Submit (rg_world (lit "Report") (Some sample_csv)))
           (Settle 0 (Resolved pdf_response)) (app_world [] None)).
  apply ReportGenerator.reach_step.
  apply rg_reachable_run. apply ReportGenerator.reach_init.
Defined.

(** C7 as stated fails in [App]: after a successful submission, a submit
    with the name cleared sets the message and keeps the preview, so a
    message and a resource are shown together. *)
Lemma C7_counterexample :
  let a :=
    App.run
      [Submit; Settle 0 (Resolved pdf_response); ChangeTitle []; Submit]
      (app_world (lit "Report") (Some sample_csv)) in
  App.error (comp a) = Some (lit "Please enter a name and upload a CSV file.") /\
  App.pdfUrl (comp a) = Some (BlobURL 0) /\
  App.shows_error (comp a) = true /\
  App.shows_preview (comp a) = true.
Proof. vm_compute. repeat split; reflexivity. Qed.

(** ** The blob URL store *)

Lemma app_inv_init : App.inv App.world0.
Proof.
  unfold App.inv, store_ok. simpl. split; [tauto|discriminate].
Qed.

Lemma app_inv_step (ev : Event) (a : World App.State) :
  App.inv a -> App.inv (App.step ev a).
Proof.
  intros Hinv. pose proof Hinv as (Hs & Hp).
  destruct ev as [t|f| |id o].
  - destruct a as [[? ? ? ?] ?]. exact Hinv.
  - destruct a as [[? ? ? ?] ?]. exact Hinv.
  - simpl. destruct (app_submit_cases a) as [[_ E]|[_ (req & E)]];
      rewrite E; exact Hinv.
  - simpl. destruct (in_dec Nat.eq_dec id (inflight (env a))); [|exact Hinv].
    destruct (app_settled_cases o (settle id a)) as [[_ (m & E)]|[_ (b & E)]];
      rewrite E; [exact Hinv|].
    unfold App.inv, store_ok. simpl. split.
    + intros n b' [H|H].
      * injection H as H _. lia.
      * apply Hs in H. lia.
    + intros n H. injection H as H. lia.
Qed.

Lemma app_reachable_inv (a : World App.State) :
  App.reachable a -> App.inv a.
Proof.
  induction 1 as [|ev a _ IH].
  - apply app_inv_init.
  - now apply app_inv_step.
Qed.

Lemma app_reachable_run (evs : list Event) (a : World App.State) :
  App.reachable a -> App.reachable (App.run evs a).
Proof.
  revert a. induction evs as [|ev evs IH]; intros a H; simpl; auto.
  apply IH. now constructor.
Qed.

(** No event takes an entry out of the store: [URL.revokeObjectURL] is
    never called. *)
Lemma rg_store_step (ev : Event) (w : World ReportGenerator.State) :
  incl (blob_urls (env w)) (blob_urls (env (ReportGenerator.step ev w))).
Proof.
  destruct ev as [t|f| |id o]; simpl; try apply incl_refl.
  - destruct (ReportGenerator.loading (comp w)); [apply incl_refl|].
    destruct (rg_submit_cases w) as [[_ (m & _ & E)]|[_ (req & E)]];
      rewrite E; apply incl_refl.
  - destruct (in_dec Nat.eq_dec id (inflight (env w))); [|apply incl_refl].
    destruct (rg_settled_cases o (settle id w)) as [[_ (m & _ & E)]|[_ (b & E)]];
      rewrite E; simpl; [apply incl_refl|apply incl_tl, incl_refl].
Qed.

Lemma rg_store_run (evs : list Event) (w : World ReportGenerator.State) :
  incl (blob_urls (env w)) (blob_urls (env (ReportGenerator.run evs w))).
Proof.
  revert w. induction evs as [|ev evs IH]; intros w; simpl.
  - apply incl_refl.
  - eapply incl_tran; [apply rg_store_step|apply IH].
Qed.

Lemma app_store_step (ev : Event) (a : World App.State) :
  incl (blob_urls (env a)) (blob_urls (env (App.step ev a))).
Proof.
  destruct ev as [t|f| |id o]; simpl; try apply incl_refl.
  - destruct (app_submit_cases a) as [[_ E]|[_ (req & E)]];
      rewrite E; apply incl_refl.
  - destruct (in_dec Nat.eq_dec id (inflight (env a))); [|apply incl_refl].
    destruct (app_settled_cases o (settle id a)) as [[_ (m & E)]|[_ (b & E)]];
      rewrite E; simpl; [apply incl_refl|apply incl_tl, incl_refl].
Qed.

Lemma app_store_run (evs : list Event) (a : World App.State) :
  incl (blob_urls (env a)) (blob_urls (env (App.run evs a))).
Proof.
  revert a. induction evs as [|ev evs IH]; intros a; simpl.
  - apply incl_refl.
  - eapply incl_tran; [apply app_store_step|apply IH].
Qed.

Lemma store_fresh (e : Env) :
  store_ok e -> ~ In (BlobURL (minted e)) (map fst (blob_urls e)).
Proof.
  intros Hs H. apply in_map_iff in H. destruct H as ([u b] & E & H).
  simpl in E. subst u. apply Hs in H. lia.
Qed.

(** C8, as amended. A successful submission puts a new resource reference
    in place of the one the form held: the new object URL differs from the
    prior reference and from every URL of the store. The prior reference is
    not released: the store keeps all its entries and gains the new one,
    and no later event removes any. *)
Theorem C8_reference_replaced_not_released
    (w : World ReportGenerator.State) (id : nat) (r : Response) (b : Blob)
    (a : World App.State) (aid : nat) (s : Response) (c : Blob)
    (Hreach : ReportGenerator.reachable w)
    (Hflight : In id (inflight (env w)))
    (Hok : ok r = true)
    (Hblob : blob_body r = inl b)
    (Hareach : App.reachable a)
    (Haflight : In aid (inflight (env a)))
    (Haok : ok s = true)
    (Hablob : blob_body s = inl c) :
  let w' := ReportGenerator.step (Settle id (Resolved r)) w in
  let a' := App.step (Settle aid (Resolved s)) a in
  (exists u,
     ReportGenerator.pdfUrl (comp w') = Some u /\
     ReportGenerator.pdfUrl (comp w) <> Some u /\
     ~ In u (map fst (blob_urls (env w))) /\
     blob_urls (env w') = (u, b) :: blob_urls (env w) /\
     forall evs, incl (blob_urls (env w')) (blob_urls (env (ReportGenerator.run evs w')))) /\
  (exists u,
     App.pdfUrl (comp a') = Some u /\
     App.pdfUrl (comp a) <> Some u /\
     ~ In u (map fst (blob_urls (env a))) /\
     blob_urls (env a') = (u, c) :: blob_urls (env a) /\
     forall evs, incl (blob_urls (env a')) (blob_urls (env (App.run evs a')))).
Proof.
  intros w' a'. subst w' a'.
  destruct (rg_reachable_inv w Hreach) as (Hs & Hp & _).
  destruct (app_reachable_inv a Hareach) as (Has & Hap).
  split.
  - exists (BlobURL (minted (env w))).
    rewrite rg_step_settle by exact Hflight.
    rewrite (rg_settled_ok _ r b Hok Hblob). simpl.
    repeat split.
    + intros H. apply Hp in H. lia.
    + now apply store_fresh.
    + intros evs.
      apply (rg_store_run evs
               (mkWorld
                  (ReportGenerator.mkState
                     (ReportGenerator.reportTitle (comp w))
                     (ReportGenerator.file (comp w)) false
                     (Some (BlobURL (minted (env w))))
                     (ReportGenerator.error (comp w)))
                  (mkEnv (sent (env w))
                     (remove Nat.eq_dec id (inflight (env w)))
                     (S (minted (env w)))
                     ((BlobURL (minted (env w)), b) :: blob_urls (env w))))).
  - exists (BlobURL (minted (env a))).
    rewrite app_step_settle by exact Haflight.
    rewrite (app_settled_ok _ s c Haok Hablob). simpl.
    repeat split.
    + intros H. apply Hap in H. lia.
    + now apply store_fresh.
    + intros evs.
      apply (app_store_run evs
               (mkWorld
                  (App.mkState (App.name (comp a)) (App.file (comp a))
                     (Some (BlobURL (minted (env a)))) (App.error (comp a)))
                  (mkEnv (sent (env a))
                     (remove Nat.eq_dec aid (inflight (env a)))
                     (S (minted (env a)))
                     ((BlobURL (minted (env a)), c) :: blob_urls (env a))))).
Qed.

Lemma C8_reference_replaced_not_released_witness :
  let w :=
    ReportGenerator.run [Submit; Settle 0 (Resolved pdf_response); Submit]
      (rg_world (lit "Report") (Some sample_csv)) in
  let a :=
    App.run [Submit; Settle 0 (Resolved pdf_response); Submit]
      (app_world (lit "Report") (Some sample_csv)) in
  let w' := ReportGenerator.step (Settle 1 (Resolved pdf_response)) w in
  let a' := App.step (Settle 1 (Resolved pdf_response)) a in
  (exists u,
     ReportGenerator.pdfUrl (comp w') = Some u /\
     ReportGenerator.pdfUrl (comp w) <> Some u /\
     ~ In u (map fst (blob_urls (env w))) /\
     blob_urls (env w') = (u, sample_pdf) :: blob_urls (env w) /\
     forall evs, incl (blob_urls (env w')) (blob_urls (env (ReportGenerator.run evs w')))) /\
  (exists u,
     App.pdfUrl (comp a') = Some u /\
     App.pdfUrl (comp a) <> Some u /\
     ~ In u (map fst (blob_urls (env a))) /\
     blob_urls (env a') = (u, sample_pdf) :: blob_urls (env a) /\
     forall evs, incl (blob_urls (env a')) (blob_urls (env (App.run evs a')))).
Proof.
  apply (@C8_reference_replaced_not_released
           (ReportGenerator.run [Submit; Settle 0 (Resolved pdf_response); Submit]
              (rg_world (lit "Report") (Some sample_csv)))
           1 pdf_response sample_pdf
           (App.run [Submit; Settle 0 (Resolved pdf_response); Submit]
              (app_world (lit "Report") (Some sample_csv)))
           1 pdf_response sample_pdf).
  - apply rg_reachable_run. apply rg_reachable_run. apply ReportGenerator.reach_init.
  - left. reflexivity.
  - reflexivity.
  - reflexivity.
  - apply app_reachable_run. apply app_reachable_run. apply App.reach_init.
  - left. reflexivity.
  - reflexivity.
  - reflexivity.
Defined.

(** C8 as stated fails: after two successful submissions the store holds
    two live object URLs; the first was replaced in the form but never
    released. *)
Lemma C8_counterexample :
  let w :=
    ReportGenerator.run
      [Submit; Settle 0 (Resolved pdf_response);
       Submit; Settle 1 (Resolved pdf_response)]
      (rg_world (lit "Report") (Some sample_csv)) in
  ReportGenerator.pdfUrl (comp w) = Some (BlobURL 1) /\
  blob_urls (env w) = [(BlobURL 1, sample_pdf); (BlobURL 0, sample_pdf)] /\
  List.length (blob_urls (env w)) = 2.
Proof. vm_compute. repeat split; reflexivity. Qed.

(** * Further properties of the code *)

(** ** What [trim] leaves of a title *)

Lemma trimStart_split (s : jsstring) :
  exists pre, s = pre ++ trimStart s /\ blank pre = true.
Proof.
  induction s as [|c s (pre & E & B)]; simpl.
  - exists []. split; reflexivity.
  - destruct (is_white_space c) eqn:W.
    + exists (c :: pre). simpl. rewrite W, B. split; [now f_equal|reflexivity].
    + exists []. split; reflexivity.
Qed.

Lemma trimEnd_split (s : jsstring) :
  exists post, s = trimEnd s ++ post /\ blank post = true.
Proof.
  destruct (trimStart_split (rev s)) as (pre & E & B).
  exists (rev pre). split.
  - unfold trimEnd. rewrite <- rev_app_distr, <- E. now rewrite rev_involutive.
  - now rewrite blank_rev.
Qed.

Lemma trim_split (s : jsstring) :
  exists pre post,
    s = pre ++ trim s ++ post /\ blank pre = true /\ blank post = true.
Proof.
  destruct (trimStart_split s) as (pre & E1 & B1).
  destruct (trimEnd_split (trimStart s)) as (post & E2 & B2).
  exists pre, post. unfold trim. now rewrite <- E2, <- E1.
Qed.

Lemma trimStart_clean (u : jsstring) : starts_clean u -> trimStart u = u.
Proof.
  destruct u as [|c u]; simpl; auto. now intros ->.
Qed.

Lemma trim_starts_clean (s : jsstring) : starts_clean (trim s).
Proof.
  unfold trim.
  pose proof (trimStart_head s) as H.
  destruct (trimEnd_split (trimStart s)) as (post & E & _).
  destruct (trimEnd (trimStart s)) as [|c u]; simpl; auto.
  rewrite E in H. exact H.
Qed.

Lemma trim_ends_clean (s : jsstring) : starts_clean (rev (trim s)).
Proof.
  unfold trim, trimEnd. rewrite rev_involutive. apply trimStart_head.
Qed.

Lemma trim_idempotent (s : jsstring) : trim (trim s) = trim s.
Proof.
  unfold trim at 1.
  rewrite (trimStart_clean _ (trim_starts_clean s)).
  unfold trimEnd.
  rewrite (trimStart_clean _ (trim_ends_clean s)).
  apply rev_involutive.
Qed.

Lemma to_usv_starts_clean (u : jsstring) :
  starts_clean u -> starts_clean (to_usv u).
Proof.
  intros H. pose proof (to_usv_white_space u) as F.
  destruct F as [|c d u u' R _]; simpl in *; auto. congruence.
Qed.

Lemma to_usv_ends_clean (u : jsstring) :
  starts_clean (rev u) -> starts_clean (rev (to_usv u)).
Proof.
  intros H.
  pose proof (Forall2_rev_white_space _ _ (to_usv_white_space u)) as F.
  destruct F as [|c d v v' R _]; simpl in *; auto. congruence.
Qed.

(** What is sent for a trimmed title has nothing left to trim. *)
Lemma trim_to_usv_trim (s : jsstring) :
  trim (to_usv (trim s)) = to_usv (trim s).
Proof.
  unfold trim at 1.
  rewrite (trimStart_clean _ (to_usv_starts_clean _ (trim_starts_clean s))).
  unfold trimEnd.
  rewrite (trimStart_clean _ (to_usv_ends_clean _ (trim_ends_clean s))).
  apply rev_involutive.
Qed.

(** ** The requests that are issued *)

Lemma rg_sent_step (ev : Event) (w : World ReportGenerator.State) :
  sent (env (ReportGenerator.step ev w)) = sent (env w) \/
  (ev = Submit /\
   exists f,
     ReportGenerator.file (comp w) = Some f /\
     blank (ReportGenerator.reportTitle (comp w)) = false /\
     sent (env (ReportGenerator.step ev w))
     = sent (env w) ++
       [mkRequest (lit "http://localhost:8000/api/analyze") (lit "POST")
          [(lit "file", EFile f);
           (lit "reportTitle",
            EString (to_usv (trim (ReportGenerator.reportTitle (comp w)))))]]).
Proof.
  destruct ev as [t|f| |id o]; simpl; auto.
  - destruct (ReportGenerator.loading (comp w)); auto.
    destruct (ReportGenerator.file (comp w)) as [f|] eqn:F.
    + destruct (blank (ReportGenerator.reportTitle (comp w))) eqn:B.
      * left. now rewrite (rg_blank_title w f F B).
      * right. split; [reflexivity|]. exists f.
        now rewrite (rg_valid w f F B).
    + left. now rewrite (rg_no_file w F).
  - destruct (in_dec Nat.eq_dec id (inflight (env w))); auto.
    left.
    destruct (rg_settled_cases o (settle id w)) as [[_ (m & _ & E)]|[_ (b & E)]];
      now rewrite E.
Qed.

Lemma app_sent_step (ev : Event) (a : World App.State) :
  sent (env (App.step ev a)) = sent (env a) \/
  (ev = Submit /\
   exists f,
     App.file (comp a) = Some f /\
     App.name (comp a) <> [] /\
     sent (env (App.step ev a))
     = sent (env a) ++
       [mkRequest (lit "/api/analyze") (lit "POST")
          [(lit "agentName", EString (to_usv (App.name (comp a))));
           (lit "file", EFile f)]]).
Proof.
  destruct ev as [t|f| |id o]; simpl; auto.
  - destruct (App.file (comp a)) as [f|] eqn:F.
    + destruct (jsstring_eq_dec (App.name (comp a)) []) as [N|N].
      * left. now rewrite (app_invalid a (or_introl N)).
      * right. split; [reflexivity|]. exists f.
        now rewrite (app_valid a f F N).
    + left. now rewrite (app_invalid a (or_intror F)).
  - destruct (in_dec Nat.eq_dec id (inflight (env a))); auto.
    left.
    destruct (app_settled_cases o (settle id a)) as [[_ (m & E)]|[_ (b & E)]];
      now rewrite E.
Qed.

(** X1. Every request that [ReportGenerator] has issued, at any point of
    any sequence of events, is a POST to the analyze endpoint with exactly
    the fields [file] and [reportTitle], in that order, and its title is
    not empty and has no white space left to trim. *)
Theorem X1_rg_requests_well_formed (w : World ReportGenerator.State)
    (Hreach : ReportGenerator.reachable w) :
  Forall rg_request_ok (sent (env w)).
Proof.
  induction Hreach as [|ev w _ IH].
  - constructor.
  - destruct (rg_sent_step ev w) as [E|(_ & f & F & B & E)]; rewrite E; auto.
    apply Forall_app. split; [exact IH|].
    constructor; [|constructor].
    exists f, (to_usv (trim (ReportGenerator.reportTitle (comp w)))).
    split; [reflexivity|]. split.
    + apply to_usv_nonempty. intros H. apply trim_nil_blank in H. congruence.
    + apply trim_to_usv_trim.
Qed.

Lemma X1_rg_requests_well_formed_witness :
  Forall rg_request_ok
    (sent (env (ReportGenerator.run
                  [Submit; Settle 0 (Resolved bad_data);
                   ChangeTitle (lit " Q2 "); Submit]
                  (rg_world (lit "  Q1 Report ") (Some sample_csv))))).
Proof.
  apply X1_rg_requests_well_formed.
  apply rg_reachable_run. apply rg_reachable_run. apply ReportGenerator.reach_init.
Defined.

(** X2. Every request that [App] has issued is a POST to /api/analyze with
    exactly the fields [agentName] and [file], in that order, and its name
    is not empty. *)
Theorem X2_app_requests_well_formed (a : World App.State)
    (Hreach : App.reachable a) :
  Forall app_request_ok (sent (env a)).
Proof.
  induction Hreach as [|ev a _ IH].
  - constructor.
  - destruct (app_sent_step ev a) as [E|(_ & f & F & N & E)]; rewrite E; auto.
    apply Forall_app. split; [exact IH|].
    constructor; [|constructor].
    exists f, (to_usv (App.name (comp a))).
    split; [reflexivity|now apply to_usv_nonempty].
Qed.

Lemma X2_app_requests_well_formed_witness :
  Forall app_request_ok
    (sent (env (App.run [Submit; Submit; Settle 1 unreachable; Submit]
                  (app_world (lit "Ann") (Some sample_csv))))).
Proof.
  apply X2_app_requests_well_formed.
  apply app_reachable_run. apply app_reachable_run. apply App.reach_init.
Defined.

(** X3. The title that [ReportGenerator] sends is the typed title with
    nothing but white space taken off its two ends, as a USVString: the
    typed title is a text [t] between a blank prefix and a blank suffix,
    [t] is not empty and neither begins nor ends with white space, and
    what is sent is [t] with each surrogate that is not half of a pair
    replaced by U+FFFD, which has the length of [t] and is [t] itself when
    [t] holds no surrogate. *)
Theorem X3_rg_sent_title (w : World ReportGenerator.State) (f : File)
    (Hfile : ReportGenerator.file (comp w) = Some f)
    (Htitle : blank (ReportGenerator.reportTitle (comp w)) = false)
    (Hidle : ReportGenerator.loading (comp w) = false) :
  exists pre t post,
    ReportGenerator.reportTitle (comp w) = pre ++ t ++ post /\
    blank pre = true /\ blank post = true /\
    starts_clean t /\ starts_clean (rev t) /\ t <> [] /\
    sent (env (ReportGenerator.step Submit w))
    = sent (env w) ++
      [mkRequest (lit "http://localhost:8000/api/analyze") (lit "POST")
         [(lit "file", EFile f); (lit "reportTitle", EString (to_usv t))]] /\
    List.length (to_usv t) = List.length t /\
    (Forall (fun c => is_high_surrogate c = false /\
                      is_low_surrogate c = false) t -> to_usv t = t).
Proof.
  destruct (trim_split (ReportGenerator.reportTitle (comp w)))
    as (pre & post & E & B1 & B2).
  exists pre, (trim (ReportGenerator.reportTitle (comp w))), post.
  repeat split; auto.
  - apply trim_starts_clean.
  - apply trim_ends_clean.
  - intros H. apply trim_nil_blank in H. congruence.
  - simpl. rewrite Hidle. now rewrite (rg_valid w f Hfile Htitle).
  - symmetry. eapply Forall2_length. apply to_usv_white_space.
  - apply to_usv_plain.
Qed.

Lemma X3_rg_sent_title_witness :
  let w := rg_world (lit "  Q1 Report ") (Some sample_csv) in
  exists pre t post,
    ReportGenerator.reportTitle (comp w) = pre ++ t ++ post /\
    blank pre = true /\ blank post = true /\
    starts_clean t /\ starts_clean (rev t) /\ t <> [] /\
    sent (env (ReportGenerator.step Submit w))
    = sent (env w) ++
      [mkRequest (lit "http://localhost:8000/api/analyze") (lit "POST")
         [(lit "file", EFile sample_csv); (lit "reportTitle", EString (to_usv t))]] /\
    List.length (to_usv t) = List.length t /\
    (Forall (fun c => is_high_surrogate c = false /\
                      is_low_surrogate c = false) t -> to_usv t = t).
Proof.
  apply (@X3_rg_sent_title (rg_world (lit "  Q1 Report ") (Some sample_csv)) sample_csv);
    reflexivity.
Defined.

(** X4. Requests are issued by submits only, at most one per submit: over
    any sequence of events, the requests issued grow by no more than the
    number of [Submit] events in it; edits and settles issue none (there
    is no retry). *)
Theorem X4_requests_only_on_submit
    (evs : list Event) (w : World ReportGenerator.State) (a : World App.State) :
  List.length (sent (env (ReportGenerator.run evs w)))
    <= List.length (sent (env w)) + List.length (filter is_submit evs) /\
  List.length (sent (env (App.run evs a)))
    <= List.length (sent (env a)) + List.length (filter is_submit evs).
Proof.
  split.
  - revert w. induction evs as [|ev evs IH]; intros w; simpl; [lia|].
    specialize (IH (ReportGenerator.step ev w)).
    change (fold_left (fun w0 ev0 => ReportGenerator.step ev0 w0) evs
              (ReportGenerator.step ev w))
      with (ReportGenerator.run evs (ReportGenerator.step ev w)).
    destruct (rg_sent_step ev w) as [E|(-> & f & _ & _ & E)];
      rewrite E in IH.
    + destruct (is_submit ev); simpl; lia.
    + rewrite length_app in IH. simpl in *. lia.
  - revert a. induction evs as [|ev evs IH]; intros a; simpl; [lia|].
    specialize (IH (App.step ev a)).
    change (fold_left (fun w0 ev0 => App.step ev0 w0) evs (App.step ev a))
      with (App.run evs (App.step ev a)).
    destruct (app_sent_step ev a) as [E|(-> & f & _ & _ & E)];
      rewrite E in IH.
    + destruct (is_submit ev); simpl; lia.
    + rewrite length_app in IH. simpl in *. lia.
Qed.

(** ** How a settled request is handled *)

Lemma falsy_printable (e : json) : truthy e = false -> printable e = true.
Proof. destruct e; simpl; auto; discriminate. Qed.

Lemma rg_render_throws (c : ReportGenerator.State) :
  ReportGenerator.render c = None <-> printable (ReportGenerator.error c) = false.
Proof.
  unfold ReportGenerator.render, ReportGenerator.render_error.
  destruct (truthy (ReportGenerator.error c)) eqn:T.
  - destruct (printable (ReportGenerator.error c)); split; congruence.
  - rewrite (falsy_printable _ T). split; discriminate.
Qed.

Lemma rg_render_view (c : ReportGenerator.State) (v : ReportGenerator.View) :
  ReportGenerator.render c = Some v ->
  ReportGenerator.error_slot v
    = (if truthy (ReportGenerator.error c)
       then Element (ReportGenerator.error c)
       else Falsy (ReportGenerator.error c)) /\
  ReportGenerator.button_disabled v = ReportGenerator.loading c /\
  ReportGenerator.button_text v
    = (if ReportGenerator.loading c then lit "Generating..." else lit "Generate PDF") /\
  ReportGenerator.preview_slot v
    = match ReportGenerator.pdfUrl c with
      | Some url =>
          Element
            (ReportGenerator.mkPreview url url
               (or_string (ReportGenerator.reportTitle c) (lit "report") ++ lit ".pdf"))
      | None => Falsy JNull
      end.
Proof.
  unfold ReportGenerator.render, ReportGenerator.render_error.
  destruct (truthy (ReportGenerator.error c));
    [destruct (printable (ReportGenerator.error c))|];
    intros H; try discriminate; injection H as <-; repeat split.
Qed.

(** X5. However the request of [ReportGenerator] ends (transport failure,
    any status, readable body or not), the [finally] block has cleared
    [loading] when the handler is done. The render that follows throws
    exactly when the message now stored is a value React cannot print (an
    object, or an array that holds one, taken from the server's [error]
    member); whenever it does not throw, the submit button is enabled
    again and reads "Generate PDF". *)
Theorem X5_rg_loading_cleared
    (w : World ReportGenerator.State) (id : nat) (o : FetchOutcome)
    (Hflight : In id (inflight (env w))) :
  let w' := ReportGenerator.step (Settle id o) w in
  ReportGenerator.loading (comp w') = false /\
  (ReportGenerator.render (comp w') = None <->
     printable (ReportGenerator.error (comp w')) = false) /\
  (forall v, ReportGenerator.render (comp w') = Some v ->
     ReportGenerator.button_disabled v = false /\
     ReportGenerator.button_text v = lit "Generate PDF").
Proof.
  intros w'.
  assert (L : ReportGenerator.loading (comp w') = false).
  { subst w'. rewrite rg_step_settle by exact Hflight.
    destruct (rg_settled_cases o (settle id w)) as [[_ (m & _ & E)]|[_ (b & E)]];
      rewrite E; reflexivity. }
  split; [exact L|]. split; [apply rg_render_throws|].
  intros v Hv. apply rg_render_view in Hv.
  destruct Hv as (_ & Hd & Ht & _). rewrite Hd, Ht, L. split; reflexivity.
Qed.

Lemma X5_rg_loading_cleared_witness :
  let w := ReportGenerator.step Submit (rg_world (lit "Report") (Some sample_csv)) in
  let w' := ReportGenerator.step (Settle 0 (Resolved truncated)) w in
  ReportGenerator.loading (comp w') = false /\
  (ReportGenerator.render (comp w') = None <->
     printable (ReportGenerator.error (comp w')) = false) /\
  (forall v, ReportGenerator.render (comp w') = Some v ->
     ReportGenerator.button_disabled v = false /\
     ReportGenerator.button_text v = lit "Generate PDF").
Proof.
  apply (@X5_rg_loading_cleared
           (ReportGenerator.step Submit (rg_world (lit "Report") (Some sample_csv)))
           0 (Resolved truncated)).
  left. reflexivity.
Defined.

(** X6. In [ReportGenerator], a non-2xx response whose body parses to a
    JSON value other than [null] but has no [error] member, or a falsy one
    (null, false, 0, the empty string), leaves the form Failed with the
    fixed text "Failed to generate report."; so does a body that keeps its
    text under another key. *)
Theorem X6_rg_generic_failure
    (w : World ReportGenerator.State) (id : nat) (r : Response) (v : json)
    (Hflight : In id (inflight (env w)))
    (Hstatus : ok r = false)
    (Hbody : json_body r = Some v)
    (Hnonnull : v <> JNull)
    (Hmember : error_member v = None \/
               exists x, error_member v = Some x /\ truthy x = false) :
  ReportGenerator.result (comp (ReportGenerator.step (Settle id (Resolved r)) w))
  = ReportGenerator.RFailed (JStr (lit "Failed to generate report.")).
Proof.
  rewrite rg_step_settle by exact Hflight.
  rewrite (rg_settled_parsed _ _ _ Hstatus Hbody Hnonnull).
  destruct Hmember as [->|(x & -> & T)]; simpl; [|rewrite T]; reflexivity.
Qed.

Lemma X6_rg_generic_failure_witness :
  ReportGenerator.result
    (comp (ReportGenerator.step (Settle 0 (Resolved message_key))
             (ReportGenerator.step Submit (rg_world (lit "Report") (Some sample_csv)))))
  = ReportGenerator.RFailed (JStr (lit "Failed to generate report.")).
Proof.
  apply (@X6_rg_generic_failure
           (ReportGenerator.step Submit (rg_world (lit "Report") (Some sample_csv)))
           0 message_key (JObj [(lit "message", JStr (lit "bad data"))])).
  - left. reflexivity.
  - reflexivity.
  - reflexivity.
  - discriminate.
  - left. reflexivity.
Defined.

(** X7. A 2xx response whose body cannot be read is a failure in both
    components: no object URL is created and the preview is left as it
    was; [ReportGenerator] shows "Network error. Please try again.", [App]
    shows "Failed to generate PDF: " followed by the read error's message. *)
Theorem X7_unreadable_body
    (w : World ReportGenerator.State) (id : nat)
    (a : World App.State) (aid : nat) (r : Response) (e : Exn)
    (Hflight : In id (inflight (env w)))
    (Haflight : In aid (inflight (env a)))
    (Hok : ok r = true)
    (Hblob : blob_body r = inr e) :
  let w' := ReportGenerator.step (Settle id (Resolved r)) w in
  let a' := App.step (Settle aid (Resolved r)) a in
  ReportGenerator.result (comp w')
    = ReportGenerator.RFailed (JStr (lit "Network error. Please try again.")) /\
  ReportGenerator.pdfUrl (comp w') = ReportGenerator.pdfUrl (comp w) /\
  blob_urls (env w') = blob_urls (env w) /\
  minted (env w') = minted (env w) /\
  App.error (comp a') = Some (lit "Failed to generate PDF: " ++ message e) /\
  App.pdfUrl (comp a') = App.pdfUrl (comp a) /\
  blob_urls (env a') = blob_urls (env a) /\
  minted (env a') = minted (env a).
Proof.
  intros w' a'. subst w' a'.
  rewrite rg_step_settle by exact Hflight.
  rewrite app_step_settle by exact Haflight.
  rewrite (rg_settled_unreadable _ r e Hok Hblob).
  rewrite (app_settled_unreadable _ r e Hok Hblob).
  repeat split.
Qed.

Lemma X7_unreadable_body_witness :
  let w := ReportGenerator.step Submit (rg_world (lit "Report") (Some sample_csv)) in
  let a := App.step Submit (app_world (lit "Report") (Some sample_csv)) in
  let w' := ReportGenerator.step (Settle 0 (Resolved truncated)) w in
  let a' := App.step (Settle 0 (Resolved truncated)) a in
  ReportGenerator.result (comp w')
    = ReportGenerator.RFailed (JStr (lit "Network error. Please try again.")) /\
  ReportGenerator.pdfUrl (comp w') = ReportGenerator.pdfUrl (comp w) /\
  blob_urls (env w') = blob_urls (env w) /\
  minted (env w') = minted (env w) /\
  App.error (comp a') = Some (lit "Failed to generate PDF: " ++ lit "network error") /\
  App.pdfUrl (comp a') = App.pdfUrl (comp a) /\
  blob_urls (env a') = blob_urls (env a) /\
  minted (env a') = minted (env a).
Proof.
  apply (@X7_unreadable_body
           (ReportGenerator.step Submit (rg_world (lit "Report") (Some sample_csv))) 0
           (App.step Submit (app_world (lit "Report") (Some sample_csv))) 0
           truncated (mkExn (lit "network error")));
    try reflexivity; left; reflexivity.
Defined.

(** X8. [ReportGenerator] never looks at the status beyond "2xx or not":
    two non-2xx responses with the same parsed body, or two 2xx responses
    with the same binary body, leave the world in the same state, whatever
    their status codes and whatever the part of the body that is not read. *)
Theorem X8_rg_status_not_shown
    (w : World ReportGenerator.State) (r r' : Response)
    (Hok : ok r = ok r')
    (Hjson : ok r = false -> json_body r = json_body r')
    (Hblob : ok r = true -> blob_body r = blob_body r') :
  exec (ReportGenerator.handleSubmit_settled (Resolved r)) w
  = exec (ReportGenerator.handleSubmit_settled (Resolved r')) w.
Proof.
  unfold_js. simpl. rewrite <- Hok.
  destruct (ok r) eqn:E; simpl.
  - now rewrite <- Hblob.
  - now rewrite <- Hjson.
Qed.

Lemma X8_rg_status_not_shown_witness :
  let w := ReportGenerator.step Submit (rg_world (lit "Report") (Some sample_csv)) in
  exec (ReportGenerator.handleSubmit_settled (Resolved bad_data)) w
  = exec (ReportGenerator.handleSubmit_settled
            (Resolved (mkResponse 404 (json_body bad_data) (inl sample_pdf)))) w.
Proof.
  apply (@X8_rg_status_not_shown
           (ReportGenerator.step Submit (rg_world (lit "Report") (Some sample_csv)))
           bad_data (mkResponse 404 (json_body bad_data) (inl sample_pdf))).
  - reflexivity.
  - reflexivity.
  - discriminate.
Defined.

(** ** [analyzeData] on its own *)

(** X9. [analyzeData] never reads the body of an error response: what it
    returns or throws, and the world it leaves, depend on the status and
    on the binary body only. *)
Theorem X9_analyzeData_ignores_error_body
    (C : Type) (w : World C) (r r' : Response)
    (Hstatus : status r = status r')
    (Hblob : blob_body r = blob_body r') :
  @analyzeData_settled C (Resolved r) w = analyzeData_settled (Resolved r') w.
Proof.
  unfold analyzeData_settled, await_fetch, await_blob, createObjectURL,
    bind, ret, throw, ok.
  now rewrite Hstatus, Hblob.
Qed.

Lemma X9_analyzeData_ignores_error_body_witness :
  @analyzeData_settled App.State (Resolved bad_data) App.world0
  = analyzeData_settled (Resolved (mkResponse 500 None (inl (mkBlob [])))) App.world0.
Proof.
  apply (@X9_analyzeData_ignores_error_body App.State App.world0 bad_data
           (mkResponse 500 None (inl (mkBlob []))));
    reflexivity.
Defined.

(** X10. [analyzeData] is all or nothing. Either it returns an object URL,
    which happens exactly for a 2xx response with a readable body, and
    then that URL is new and registered for that body, and nothing else
    has changed; or it throws and leaves the world untouched. On a
    non-2xx status the thrown message is "Server error: " and the status
    in decimal. *)
Theorem X10_analyzeData_all_or_nothing
    (C : Type) (w : World C) (o : FetchOutcome) :
  match @analyzeData_settled C o w with
  | (Normal u, w') =>
      settles_ok o = true /\
      u = BlobURL (minted (env w)) /\
      comp w' = comp w /\
      sent (env w') = sent (env w) /\
      inflight (env w') = inflight (env w) /\
      minted (env w') = S (minted (env w)) /\
      exists r b,
        o = Resolved r /\ blob_body r = inl b /\
        blob_urls (env w') = (u, b) :: blob_urls (env w)
  | (Throw e, w') =>
      settles_ok o = false /\
      w' = w /\
      forall r, o = Resolved r -> ok r = false ->
        message e = lit "Server error: " ++ decimal (status r)
  end.
Proof.
  unfold analyzeData_settled, await_fetch, await_blob, createObjectURL,
    bind, ret, throw.
  destruct o as [e|r]; simpl.
  - repeat split. intros r H. discriminate.
  - destruct (ok r) eqn:Hok; simpl.
    + destruct (blob_body r) as [b|e] eqn:Hb; simpl.
      * repeat split. exists r, b. repeat split. exact Hb.
      * repeat split. congruence.
    + repeat split. intros r' H _. now injection H as <-.
Qed.

Lemma lit_inj (s t : string) : lit s = lit t -> s = t.
Proof.
  unfold lit. intros H.
  rewrite <- (string_of_list_ascii_of_string s),
          <- (string_of_list_ascii_of_string t).
  f_equal.
  revert H. generalize (list_ascii_of_string s) (list_ascii_of_string t).
  induction l as [|a l IH]; intros [|b l'] H; simpl in H; try discriminate; auto.
  injection H as Hab Hl. f_equal; auto.
  rewrite <- (ascii_N_embedding a), <- (ascii_N_embedding b). now f_equal.
Qed.

Lemma to_uint_nonnil (n : N) : N.to_uint n <> Decimal.Nil.
Proof.
  destruct n as [|p]; [discriminate|].
  apply DecimalPos.Unsigned.to_uint_nonnil.
Qed.

(** The decimal text of a status code determines the code. *)
Lemma decimal_inj (n m : N) : decimal n = decimal m -> n = m.
Proof.
  unfold decimal. intros H. apply lit_inj in H.
  apply DecimalN.Unsigned.to_uint_inj.
  apply (f_equal NilZero.uint_of_string) in H.
  rewrite !NilZero.usu in H by apply to_uint_nonnil.
  now injection H.
Qed.

(** X11. The message [App] shows for a non-2xx response tells the status
    code: two such responses give the same message only when their status
    codes are equal. *)
Theorem X11_app_message_determines_status
    (a a' : World App.State) (id id' : nat) (r r' : Response)
    (Hflight : In id (inflight (env a)))
    (Hflight' : In id' (inflight (env a')))
    (Hok : ok r = false)
    (Hok' : ok r' = false)
    (Hsame : App.error (comp (App.step (Settle id (Resolved r)) a))
             = App.error (comp (App.step (Settle id' (Resolved r')) a'))) :
  status r = status r'.
Proof.
  rewrite app_step_settle in Hsame by exact Hflight.
  rewrite app_step_settle in Hsame by exact Hflight'.
  rewrite (app_settled_not_ok _ _ Hok), (app_settled_not_ok _ _ Hok') in Hsame.
  unfold app_caught in Hsame. simpl in Hsame.
  injection Hsame as H.
  apply decimal_inj. exact H.
Qed.

Lemma X11_app_message_determines_status_witness :
  status bad_data = status (mkResponse 500 None (inl sample_pdf)).
Proof.
  apply (@X11_app_message_determines_status
           (App.step Submit (app_world (lit "Report") (Some sample_csv)))
           (App.step Submit (app_world (lit "Ann") (Some sample_csv)))
           0 0 bad_data (mkResponse 500 None (inl sample_pdf)));
    try reflexivity; left; reflexivity.
Defined.

(** ** Message and preview over time *)

(** X12. In [App] a settled request writes one slot only: a success sets
    the preview and leaves the message as it was (an earlier message is
    not cleared); a failure sets a message that begins with "Failed to
    generate PDF: " and leaves the preview as it was. *)
Theorem X12_app_settle_one_slot
    (a : World App.State) (id : nat) (o : FetchOutcome)
    (Hflight : In id (inflight (env a))) :
  let a' := App.step (Settle id o) a in
  (settles_ok o = true ->
     App.error (comp a') = App.error (comp a) /\
     App.pdfUrl (comp a') = Some (BlobURL (minted (env a)))) /\
  (settles_ok o = false ->
     App.pdfUrl (comp a') = App.pdfUrl (comp a) /\
     exists m, App.error (comp a') = Some (lit "Failed to generate PDF: " ++ m)).
Proof.
  intros a'. subst a'.
  rewrite app_step_settle by exact Hflight.
  destruct (app_settled_cases o (settle id a)) as [[V (m & E)]|[V (b & E)]];
    rewrite E, V; split; intros H; try discriminate; split; try reflexivity.
  exists m. reflexivity.
Qed.

Lemma X12_app_settle_one_slot_witness :
  let a :=
    App.run [Submit; ChangeTitle []; Submit]
      (app_world (lit "Report") (Some sample_csv)) in
  let a' := App.step (Settle 0 (Resolved pdf_response)) a in
  (settles_ok (Resolved pdf_response) = true ->
     App.error (comp a') = App.error (comp a) /\
     App.pdfUrl (comp a') = Some (BlobURL (minted (env a)))) /\
  (settles_ok (Resolved pdf_response) = false ->
     App.pdfUrl (comp a') = App.pdfUrl (comp a) /\
     exists m, App.error (comp a') = Some (lit "Failed to generate PDF: " ++ m)).
Proof.
  apply (@X12_app_settle_one_slot
           (App.run [Submit; ChangeTitle []; Submit]
              (app_world (lit "Report") (Some sample_csv)))
           0 (Resolved pdf_response)).
  left. reflexivity.
Defined.

Lemma rg_preview_live_step (ev : Event) (w : World ReportGenerator.State) :
  (forall u, ReportGenerator.pdfUrl (comp w) = Some u ->
             exists b, In (u, b) (blob_urls (env w))) ->
  forall u, ReportGenerator.pdfUrl (comp (ReportGenerator.step ev w)) = Some u ->
            exists b, In (u, b) (blob_urls (env (ReportGenerator.step ev w))).
Proof.
  intros H.
  destruct ev as [t|f| |id o]; simpl; try exact H.
  - destruct (ReportGenerator.loading (comp w)); [exact H|].
    destruct (rg_submit_cases w) as [[_ (m & _ & E)]|[_ (req & E)]];
      rewrite E; simpl; discriminate.
  - destruct (in_dec Nat.eq_dec id (inflight (env w))); [|exact H].
    destruct (rg_settled_cases o (settle id w)) as [[_ (m & _ & E)]|[_ (b & E)]];
      rewrite E; simpl; [exact H|].
    intros u Hu. injection Hu as <-. exists b. now left.
Qed.

Lemma app_preview_live_step (ev : Event) (a : World App.State) :
  (forall u, App.pdfUrl (comp a) = Some u ->
             exists b, In (u, b) (blob_urls (env a))) ->
  forall u, App.pdfUrl (comp (App.step ev a)) = Some u ->
            exists b, In (u, b) (blob_urls (env (App.step ev a))).
Proof.
  intros H.
  destruct ev as [t|f| |id o]; simpl; try exact H.
  - destruct (app_submit_cases a) as [[_ E]|[_ (req & E)]];
      rewrite E; simpl; exact H.
  - destruct (in_dec Nat.eq_dec id (inflight (env a))); [|exact H].
    destruct (app_settled_cases o (settle id a)) as [[_ (m & E)]|[_ (b & E)]];
      rewrite E; simpl; [exact H|].
    intros u Hu. injection Hu as <-. exists b. now left.
Qed.

(** X13. The preview never dangles: at every point of any sequence of
    events, in either component, the URL held in [pdfUrl] is a live entry
    of the blob URL store. *)
Theorem X13_preview_is_live
    (w : World ReportGenerator.State) (a : World App.State)
    (Hreach : ReportGenerator.reachable w)
    (Hareach : App.reachable a) :
  (forall u, ReportGenerator.pdfUrl (comp w) = Some u ->
             exists b, In (u, b) (blob_urls (env w))) /\
  (forall u, App.pdfUrl (comp a) = Some u ->
             exists b, In (u, b) (blob_urls (env a))).
Proof.
  split.
  - induction Hreach as [|ev w _ IH].
    + simpl. discriminate.
    + now apply rg_preview_live_step.
  - induction Hareach as [|ev a _ IH].
    + simpl. discriminate.
    + now apply app_preview_live_step.
Qed.

Lemma X13_preview_is_live_witness :
  let w :=
    ReportGenerator.run [Submit; Settle 0 (Resolved pdf_response)]
      (rg_world (lit "Report") (Some sample_csv)) in
  let a :=
    App.run [Submit; Submit; Settle 1 (Resolved pdf_response); Settle 0 unreachable]
      (app_world (lit "Report") (Some sample_csv)) in
  (forall u, ReportGenerator.pdfUrl (comp w) = Some u ->
             exists b, In (u, b) (blob_urls (env w))) /\
  (forall u, App.pdfUrl (comp a) = Some u ->
             exists b, In (u, b) (blob_urls (env a))).
Proof.
  apply (@X13_preview_is_live
           (ReportGenerator.run [Submit; Settle 0 (Resolved pdf_response)]
              (rg_world (lit "Report") (Some sample_csv)))
           (App.run [Submit; Submit; Settle 1 (Resolved pdf_response); Settle 0 unreachable]
              (app_world (lit "Report") (Some sample_csv)))).
  - apply rg_reachable_run. apply rg_reachable_run. apply ReportGenerator.reach_init.
  - apply app_reachable_run. apply app_reachable_run. apply App.reach_init.
Defined.

(** X14. In [App], with two requests in flight, the preview follows the
    order in which they settle, not the order in which they were
    submitted: after both have succeeded the preview shows the body of the
    one that settled last, and both bodies stay in the store. *)
Theorem X14_app_last_settled_wins
    (a : World App.State) (i j : nat) (r1 r2 : Response) (b1 b2 : Blob)
    (Hdistinct : i <> j)
    (Hi : In i (inflight (env a)))
    (Hj : In j (inflight (env a)))
    (Hok1 : ok r1 = true) (Hblob1 : blob_body r1 = inl b1)
    (Hok2 : ok r2 = true) (Hblob2 : blob_body r2 = inl b2) :
  let a' := App.run [Settle i (Resolved r1); Settle j (Resolved r2)] a in
  App.pdfUrl (comp a') = Some (BlobURL (S (minted (env a)))) /\
  blob_urls (env a')
  = (BlobURL (S (minted (env a))), b2)
    :: (BlobURL (minted (env a)), b1) :: blob_urls (env a).
Proof.
  intros a'. subst a'.
  change (App.run [Settle i (Resolved r1); Settle j (Resolved r2)] a)
    with (App.step (Settle j (Resolved r2)) (App.step (Settle i (Resolved r1)) a)).
  rewrite (app_step_settle a i (Resolved r1) Hi).
  rewrite (app_settled_ok _ r1 b1 Hok1 Hblob1).
  rewrite app_step_settle.
  - rewrite (app_settled_ok _ r2 b2 Hok2 Hblob2). split; reflexivity.
  - simpl. apply in_in_remove; auto.
Qed.

Lemma X14_app_last_settled_wins_witness :
  let a := App.run [Submit; ChangeTitle (lit "Second"); Submit]
             (app_world (lit "First") (Some sample_csv)) in
  let a' := App.run [Settle 1 (Resolved pdf_response);
                     Settle 0 (Resolved (mkResponse 201 None (inl (mkBlob (lit "old")))))] a in
  App.pdfUrl (comp a') = Some (BlobURL (S (minted (env a)))) /\
  blob_urls (env a')
  = (BlobURL (S (minted (env a))), mkBlob (lit "old"))
    :: (BlobURL (minted (env a)), sample_pdf) :: blob_urls (env a).
Proof.
  apply (@X14_app_last_settled_wins
           (App.run [Submit; ChangeTitle (lit "Second"); Submit]
              (app_world (lit "First") (Some sample_csv)))
           1 0 pdf_response (mkResponse 201 None (inl (mkBlob (lit "old"))))
           sample_pdf (mkBlob (lit "old")));
    try reflexivity.
  - discriminate.
  - right. left. reflexivity.
  - left. reflexivity.
Defined.

(** X15. A whole successful submission in [ReportGenerator]: from any
    reachable world that is not loading, with a file and a title that is
    not blank, a submit followed by a 2xx answer with a readable body to
    the request just issued ends in Success: the preview shows a new
    object URL registered for that body, there is no message, nothing is
    in flight, exactly one request was issued, and the typed title is
    still in the input. *)
Theorem X15_rg_successful_submission
    (w : World ReportGenerator.State) (f : File) (r : Response) (b : Blob)
    (Hreach : ReportGenerator.reachable w)
    (Hidle : ReportGenerator.loading (comp w) = false)
    (Hfile : ReportGenerator.file (comp w) = Some f)
    (Htitle : blank (ReportGenerator.reportTitle (comp w)) = false)
    (Hok : ok r = true)
    (Hblob : blob_body r = inl b) :
  let w' :=
    ReportGenerator.run
      [Submit; Settle (List.length (sent (env w))) (Resolved r)] w in
  ReportGenerator.result (comp w')
    = ReportGenerator.RSuccess (BlobURL (minted (env w))) /\
  In (BlobURL (minted (env w)), b) (blob_urls (env w')) /\
  inflight (env w') = [] /\
  List.length (sent (env w')) = S (List.length (sent (env w))) /\
  ReportGenerator.reportTitle (comp w') = ReportGenerator.reportTitle (comp w).
Proof.
  intros w'. subst w'.
  destruct (rg_reachable_inv w Hreach) as (_ & _ & _ & Hl).
  destruct Hl as [[_ Hfl]|[L _]]; [|congruence].
  change (ReportGenerator.run
            [Submit; Settle (List.length (sent (env w))) (Resolved r)] w)
    with (ReportGenerator.step (Settle (List.length (sent (env w))) (Resolved r))
            (ReportGenerator.step Submit w)).
  assert (S1 : ReportGenerator.step Submit w = exec ReportGenerator.handleSubmit w)
    by (simpl; now rewrite Hidle).
  rewrite S1, (rg_valid w f Hfile Htitle), Hfl.
  rewrite rg_step_settle by (simpl; auto).
  rewrite (rg_settled_ok _ r b Hok Hblob). simpl.
  destruct (Nat.eq_dec (List.length (sent (env w))) (List.length (sent (env w))));
    [|congruence].
  repeat split; auto.
  rewrite length_app. simpl. lia.
Qed.

Lemma X15_rg_successful_submission_witness :
  let w :=
    ReportGenerator.run [Submit; Settle 0 (Resolved bad_data)]
      (rg_world (lit "Q1 Report") (Some sample_csv)) in
  let w' :=
    ReportGenerator.run
      [Submit; Settle (List.length (sent (env w))) (Resolved pdf_response)] w in
  ReportGenerator.result (comp w')
    = ReportGenerator.RSuccess (BlobURL (minted (env w))) /\
  In (BlobURL (minted (env w)), sample_pdf) (blob_urls (env w')) /\
  inflight (env w') = [] /\
  List.length (sent (env w')) = S (List.length (sent (env w))) /\
  ReportGenerator.reportTitle (comp w') = ReportGenerator.reportTitle (comp w).
Proof.
  apply (@X15_rg_successful_submission
           (ReportGenerator.run [Submit; Settle 0 (Resolved bad_data)]
              (rg_world (lit "Q1 Report") (Some sample_csv)))
           sample_csv pdf_response sample_pdf);
    try reflexivity.
  apply rg_reachable_run. apply rg_reachable_run. apply ReportGenerator.reach_init.
Defined.

(** X16. In [ReportGenerator] every submit that reaches the handler takes
    the preview away at once, also when validation then rejects the input:
    [pdfUrl] is null, the render that follows does not throw and shows no
    preview; the object URL that was shown stays in the store. *)
Theorem X16_rg_submit_clears_preview
    (w : World ReportGenerator.State)
    (Hidle : ReportGenerator.loading (comp w) = false) :
  let w' := ReportGenerator.step Submit w in
  ReportGenerator.pdfUrl (comp w') = None /\
  (exists v, ReportGenerator.render (comp w') = Some v /\
             ReportGenerator.preview_slot v = Falsy JNull) /\
  blob_urls (env w') = blob_urls (env w).
Proof.
  intros w'. subst w'. simpl ReportGenerator.step. rewrite Hidle.
  destruct (ReportGenerator.file (comp w)) as [f|] eqn:F.
  - destruct (blank (ReportGenerator.reportTitle (comp w))) eqn:B.
    + rewrite (rg_blank_title w f F B).
      split; [reflexivity|]. split; [|reflexivity].
      eexists. split; reflexivity.
    + rewrite (rg_valid w f F B).
      split; [reflexivity|]. split; [|reflexivity].
      eexists. split; reflexivity.
  - rewrite (rg_no_file w F).
    split; [reflexivity|]. split; [|reflexivity].
    eexists. split; reflexivity.
Qed.

Lemma X16_rg_submit_clears_preview_witness :
  let w :=
    ReportGenerator.run
      [Submit; Settle 0 (Resolved pdf_response); ChangeTitle (lit "   ")]
      (rg_world (lit "Report") (Some sample_csv)) in
  let w' := ReportGenerator.step Submit w in
  ReportGenerator.pdfUrl (comp w') = None /\
  (exists v, ReportGenerator.render (comp w') = Some v /\
             ReportGenerator.preview_slot v = Falsy JNull) /\
  blob_urls (env w') = blob_urls (env w).
Proof.
  apply (@X16_rg_submit_clears_preview
           (ReportGenerator.run
              [Submit; Settle 0 (Resolved pdf_response); ChangeTitle (lit "   ")]
              (rg_world (lit "Report") (Some sample_csv)))).
  reflexivity.
Defined.

(** ** What is rendered *)

(** X17. What [ReportGenerator] renders, at every point of any sequence
    of events. The render throws exactly when the stored message is a
    value React cannot print (an object, or an array that holds one).
    Whenever it does not throw: while the button is disabled there is
    neither a message nor a preview; a message and a preview are never
    rendered together, and with either of them the button is enabled; and
    the message slot never holds a falsy value other than [null] (nothing
    stray is printed). *)
Theorem X17_rg_render_exclusive
    (w : World ReportGenerator.State)
    (Hreach : ReportGenerator.reachable w) :
  (ReportGenerator.render (comp w) = None <->
     printable (ReportGenerator.error (comp w)) = false) /\
  forall v, ReportGenerator.render (comp w) = Some v ->
    (ReportGenerator.button_disabled v = true ->
       ReportGenerator.error_slot v = Falsy JNull /\
       ReportGenerator.preview_slot v = Falsy JNull /\
       ReportGenerator.button_text v = lit "Generating...") /\
    (forall m, ReportGenerator.error_slot v = Element m ->
       ReportGenerator.preview_slot v = Falsy JNull /\
       ReportGenerator.button_disabled v = false) /\
    (forall p, ReportGenerator.preview_slot v = Element p ->
       ReportGenerator.error_slot v = Falsy JNull /\
       ReportGenerator.button_text v = lit "Generate PDF") /\
    (forall x, ReportGenerator.error_slot v = Falsy x -> x = JNull).
Proof.
  destruct (rg_reachable_inv w Hreach) as (_ & _ & (Hx1 & Hx2 & Hx3) & _).
  split; [apply rg_render_throws|].
  intros v Hv. apply rg_render_view in Hv.
  destruct Hv as (He & Hd & Ht & Hp). rewrite He, Hd, Ht, Hp.
  destruct (ReportGenerator.loading (comp w)) eqn:L.
  - destruct (Hx1 eq_refl) as [He' Hu]. rewrite He', Hu. simpl.
    repeat split; try discriminate. now intros x [= <-].
  - destruct (truthy (ReportGenerator.error (comp w))) eqn:T.
    + rewrite (Hx2 eq_refl). repeat split; discriminate.
    + destruct Hx3 as [He'|He']; [|congruence]. rewrite He'.
      repeat split; try discriminate. now intros x [= <-].
Qed.

Lemma X17_rg_render_exclusive_witness :
  let w :=
    ReportGenerator.run [Submit; Settle 0 (Resolved pdf_response)]
      (rg_world (lit "Report") (Some sample_csv)) in
  (ReportGenerator.render (comp w) = None <->
     printable (ReportGenerator.error (comp w)) = false) /\
  forall v, ReportGenerator.render (comp w) = Some v ->
    (ReportGenerator.button_disabled v = true ->
       ReportGenerator.error_slot v = Falsy JNull /\
       ReportGenerator.preview_slot v = Falsy JNull /\
       ReportGenerator.button_text v = lit "Generating...") /\
    (forall m, ReportGenerator.error_slot v = Element m ->
       ReportGenerator.preview_slot v = Falsy JNull /\
       ReportGenerator.button_disabled v = false) /\
    (forall p, ReportGenerator.preview_slot v = Element p ->
       ReportGenerator.error_slot v = Falsy JNull /\
       ReportGenerator.button_text v = lit "Generate PDF") /\
    (forall x, ReportGenerator.error_slot v = Falsy x -> x = JNull).
Proof.
  apply (@X17_rg_render_exclusive
           (ReportGenerator.run [Submit; Settle 0 (Resolved pdf_response)]
              (rg_world (lit "Report") (Some sample_csv)))).
  apply rg_reachable_run. apply rg_reachable_run. apply ReportGenerator.reach_init.
Defined.

(** A render that throws is within reach: a backend whose [error] member
    is an object. *)
Lemma rg_render_can_throw :
  let w :=
    ReportGenerator.run
      [Submit;
       Settle 0 (Resolved
                   (mkResponse 400
                      (Some (JObj [(lit "error",
                                    JObj [(lit "code", JStr (lit "E42"))])]))
                      (inl (mkBlob []))))]
      (rg_world (lit "Report") (Some sample_csv)) in
  ReportGenerator.reachable w /\ ReportGenerator.render (comp w) = None.
Proof.
  split.
  - apply rg_reachable_run. apply rg_reachable_run. apply ReportGenerator.reach_init.
  - reflexivity.
Qed.

(** X18. The download link of the preview, whenever the component
    renders one: it points to the same object URL as the iframe, the one
    in [pdfUrl]; its file name is the title as it stands in the input,
    untrimmed, followed by ".pdf"; and it is "report.pdf" exactly when the
    title is empty or is "report" itself (a white-space-only title does
    not fall back). *)
Theorem X18_rg_download_name
    (c : ReportGenerator.State) (v : ReportGenerator.View)
    (p : ReportGenerator.Preview)
    (Hrender : ReportGenerator.render c = Some v)
    (Hshown : ReportGenerator.preview_slot v = Element p) :
  ReportGenerator.pdfUrl c = Some (ReportGenerator.iframe_src p) /\
  ReportGenerator.link_href p = ReportGenerator.iframe_src p /\
  (ReportGenerator.reportTitle c <> [] ->
     ReportGenerator.link_download p = ReportGenerator.reportTitle c ++ lit ".pdf") /\
  (ReportGenerator.link_download p = lit "report.pdf" <->
     ReportGenerator.reportTitle c = [] \/
     ReportGenerator.reportTitle c = lit "report").
Proof.
  apply rg_render_view in Hrender. destruct Hrender as (_ & _ & _ & Hp).
  rewrite Hp in Hshown.
  destruct (ReportGenerator.pdfUrl c) as [u|]; [|discriminate].
  injection Hshown as <-. simpl.
  unfold or_string.
  change (lit "report.pdf") with (lit "report" ++ lit ".pdf").
  destruct (jsstring_eqb (ReportGenerator.reportTitle c) []) eqn:E.
  - apply empty_test in E. repeat split; auto; congruence.
  - apply empty_test_false in E. repeat split; auto.
    + intros H. right. now apply app_inv_tail in H.
    + intros [H| ->]; [contradiction|reflexivity].
Qed.

Lemma X18_rg_download_name_witness :
  let c :=
    comp (ReportGenerator.run
            [Submit; Settle 0 (Resolved pdf_response); ChangeTitle (lit "  ")]
            (rg_world (lit "Report") (Some sample_csv))) in
  let p := ReportGenerator.mkPreview (BlobURL 0) (BlobURL 0) (lit "  .pdf") in
  ReportGenerator.pdfUrl c = Some (ReportGenerator.iframe_src p) /\
  ReportGenerator.link_href p = ReportGenerator.iframe_src p /\
  (ReportGenerator.reportTitle c <> [] ->
     ReportGenerator.link_download p = ReportGenerator.reportTitle c ++ lit ".pdf") /\
  (ReportGenerator.link_download p = lit "report.pdf" <->
     ReportGenerator.reportTitle c = [] \/
     ReportGenerator.reportTitle c = lit "report").
Proof.
  apply (@X18_rg_download_name
           (comp (ReportGenerator.run
                    [Submit; Settle 0 (Resolved pdf_response); ChangeTitle (lit "  ")]
                    (rg_world (lit "Report") (Some sample_csv))))
           (ReportGenerator.mkView (lit "  ") (Falsy JNull) false (lit "Generate PDF")
              (Element (ReportGenerator.mkPreview (BlobURL 0) (BlobURL 0) (lit "  .pdf"))))
           (ReportGenerator.mkPreview (BlobURL 0) (BlobURL 0) (lit "  .pdf")));
    reflexivity.
Defined.

(** X19. Submitting never resets the form: neither a submit nor a settled
    request, whatever its outcome, changes the typed title or the selected
    file, in either component. *)
Theorem X19_inputs_survive
    (w : World ReportGenerator.State) (a : World App.State)
    (id : nat) (o : FetchOutcome) :
  (ReportGenerator.reportTitle (comp (ReportGenerator.step Submit w))
     = ReportGenerator.reportTitle (comp w) /\
   ReportGenerator.file (comp (ReportGenerator.step Submit w))
     = ReportGenerator.file (comp w) /\
   ReportGenerator.reportTitle (comp (ReportGenerator.step (Settle id o) w))
     = ReportGenerator.reportTitle (comp w) /\
   ReportGenerator.file (comp (ReportGenerator.step (Settle id o) w))
     = ReportGenerator.file (comp w)) /\
  (App.name (comp (App.step Submit a)) = App.name (comp a) /\
   App.file (comp (App.step Submit a)) = App.file (comp a) /\
   App.name (comp (App.step (Settle id o) a)) = App.name (comp a) /\
   App.file (comp (App.step (Settle id o) a)) = App.file (comp a)).
Proof.
  split.
  - assert (S1 : ReportGenerator.reportTitle (comp (ReportGenerator.step Submit w))
                 = ReportGenerator.reportTitle (comp w) /\
                 ReportGenerator.file (comp (ReportGenerator.step Submit w))
                 = ReportGenerator.file (comp w)).
    { simpl. destruct (ReportGenerator.loading (comp w)); [now split|].
      destruct (rg_submit_cases w) as [[_ (m & _ & E)]|[_ (req & E)]];
        rewrite E; now split. }
    assert (S2 : ReportGenerator.reportTitle (comp (ReportGenerator.step (Settle id o) w))
                 = ReportGenerator.reportTitle (comp w) /\
                 ReportGenerator.file (comp (ReportGenerator.step (Settle id o) w))
                 = ReportGenerator.file (comp w)).
    { simpl. destruct (in_dec Nat.eq_dec id (inflight (env w))); [|now split].
      destruct (rg_settled_cases o (settle id w)) as [[_ (m & _ & E)]|[_ (b & E)]];
        rewrite E; now split. }
    tauto.
  - assert (S1 : App.name (comp (App.step Submit a)) = App.name (comp a) /\
                 App.file (comp (App.step Submit a)) = App.file (comp a)).
    { simpl. destruct (app_submit_cases a) as [[_ E]|[_ (req & E)]];
        rewrite E; now split. }
    assert (S2 : App.name (comp (App.step (Settle id o) a)) = App.name (comp a) /\
                 App.file (comp (App.step (Settle id o) a)) = App.file (comp a)).
    { simpl. destruct (in_dec Nat.eq_dec id (inflight (env a))); [|now split].
      destruct (app_settled_cases o (settle id a)) as [[_ (m & E)]|[_ (b & E)]];
        rewrite E; now split. }
    tauto.
Qed.

Lemma app_error_shape_step (ev : Event) (a : World App.State) :
  (App.error (comp a) = None \/
   App.error (comp a) = Some (lit "Please enter a name and upload a CSV file.") \/
   exists x, App.error (comp a) = Some (lit "Failed to generate PDF: " ++ x)) ->
  App.error (comp (App.step ev a)) = None \/
  App.error (comp (App.step ev a))
    = Some (lit "Please enter a name and upload a CSV file.") \/
  exists x, App.error (comp (App.step ev a))
            = Some (lit "Failed to generate PDF: " ++ x).
Proof.
  intros H.
  destruct ev as [t|f| |id o]; simpl; try exact H.
  - destruct (app_submit_cases a) as [[_ E]|[_ (req & E)]]; rewrite E; simpl; auto.
  - destruct (in_dec Nat.eq_dec id (inflight (env a))); [|exact H].
    destruct (app_settled_cases o (settle id a)) as [[_ (m & E)]|[_ (b & E)]];
      rewrite E; simpl; [|exact H].
    right. right. exists m. reflexivity.
Qed.

(** X20. The message [App] renders, at every point of any sequence of
    events, is either none, or the validation text, or a text that begins
    with "Failed to generate PDF: "; the slot never holds an empty string. *)
Theorem X20_app_rendered_message
    (a : World App.State)
    (Hreach : App.reachable a) :
  match App.error_slot (App.render (comp a)) with
  | Falsy v => v = JNull
  | Element m =>
      m = lit "Please enter a name and upload a CSV file." \/
      exists x, m = lit "Failed to generate PDF: " ++ x
  end.
Proof.
  assert (H : App.error (comp a) = None \/
              App.error (comp a) = Some (lit "Please enter a name and upload a CSV file.") \/
              exists x, App.error (comp a) = Some (lit "Failed to generate PDF: " ++ x)).
  { induction Hreach as [|ev a _ IH].
    - left. reflexivity.
    - now apply app_error_shape_step. }
  unfold App.render. simpl.
  destruct H as [->|[->|(x & ->)]].
  - reflexivity.
  - left. reflexivity.
  - right. exists x. reflexivity.
Qed.

Lemma X20_app_rendered_message_witness :
  match
    App.error_slot
      (App.render
         (comp (App.run [Submit; Settle 0 (Resolved bad_gateway)]
                  (app_world (lit "Report") (Some sample_csv)))))
  with
  | Falsy v => v = JNull
  | Element m =>
      m = lit "Please enter a name and upload a CSV file." \/
      exists x, m = lit "Failed to generate PDF: " ++ x
  end.
Proof.
  apply (@X20_app_rendered_message
           (App.run [Submit; Settle 0 (Resolved bad_gateway)]
              (app_world (lit "Report") (Some sample_csv)))).
  apply app_reachable_run. apply app_reachable_run. apply App.reach_init.
Defined.
